(** * Publication panel: lifecycle, reaction ledger and notification outbox

    A shallow embedding of [publications/views.py] and
    [publications/serializers.py].  Database tables are finite maps or row
    lists, request handlers are computations in a state-and-exception monad,
    and Python strings are [string]s read as sequences of code points
    below 256. *)

From Stdlib Require Import ZArith Ascii String Bool List Lia.
From stdpp Require Import base option list gmap strings sorting.
Import ListNotations.

Local Open Scope Z_scope.
Local Open Scope string_scope.

(** ** Python string helpers *)

Module PyStr.

(** [str.isspace] on one code point below 256. *)
Definition is_space (c : ascii) : bool :=
  let n := N_of_ascii c in
  ((9 <=? n) && (n <=? 13) || (28 <=? n) && (n <=? 32)
   || (n =? 133) || (n =? 160))%N.

Fixpoint lstrip (s : string) : string :=
  match s with
  | EmptyString => EmptyString
  | String c r => if is_space c then lstrip r else s
  end.

Definition is_empty (s : string) : bool :=
  match s with EmptyString => true | String _ _ => false end.

Fixpoint rstrip (s : string) : string :=
  match s with
  | EmptyString => EmptyString
  | String c r =>
      let r' := rstrip r in
      if is_space c && is_empty r' then EmptyString else String c r'
  end.

(** [s.strip()] *)
Definition strip (s : string) : string := rstrip (lstrip s).

(** Truth value of a string: non-empty. *)
Definition truthy (s : string) : bool := negb (is_empty s).

(** [s.split(',')] *)
Fixpoint split_comma_aux (cur : string) (s : string) : list string :=
  match s with
  | EmptyString => [cur]
  | String c r =>
      if Ascii.eqb c ","%char
      then cur :: split_comma_aux EmptyString r
      else split_comma_aux (cur ++ String c EmptyString) r
  end.

Definition split_comma (s : string) : list string :=
  split_comma_aux EmptyString s.

End PyStr.

(** ** Data model *)

Record User := mkUser {
  user_id : Z;
  role : string;
  full_name : string
}.

Record Publication := mkPublication {
  pub_id : Z;
  title : string;
  abstract : string;
  content : string;
  file : option string;
  video_file : option string;
  author : Z;
  editor : option Z;
  status : string;
  rejection_note : option string;
  pub_categories : list string;
  keywords : string;
  views : Z
}.

(** A row of the [Views] table: the reaction ledger. *)
Record Views := mkViews {
  user_liked : bool;
  user_disliked : bool
}.

Record Notification := mkNotification {
  notif_id : Z;
  notif_user : Z;
  message : string;
  is_read : bool;
  created_at : Z;
  related_publication : Z
}.

(** Modelled from the spec: the declaration of the [Views] model is not
    part of the sources at hand; the specification gives one record per
    (publication, user) pair under a unique constraint, so the table is a
    finite map keyed by that pair. *)
Abbreviation Ledger := (gmap (Z * Z) Views).

(** The database: the publication table by primary key, the user and
    notification tables as row lists in storage order, and the sequences
    that hand out primary keys. *)
Record State := mkState {
  publications : gmap Z Publication;
  publication_seq : Z;
  users : list User;
  ledger : Ledger;
  notifications : list Notification;
  notification_seq : Z;
  categories : list string
}.

Definition set_publications (f : gmap Z Publication → gmap Z Publication)
    (st : State) : State :=
  mkState (f (publications st)) (publication_seq st) (users st) (ledger st)
          (notifications st) (notification_seq st) (categories st).

Definition set_ledger (f : Ledger → Ledger)
    (st : State) : State :=
  mkState (publications st) (publication_seq st) (users st) (f (ledger st))
          (notifications st) (notification_seq st) (categories st).

Definition set_notifications (f : list Notification → list Notification)
    (st : State) : State :=
  mkState (publications st) (publication_seq st) (users st) (ledger st)
          (f (notifications st)) (notification_seq st) (categories st).

Definition set_categories (f : list string → list string)
    (st : State) : State :=
  mkState (publications st) (publication_seq st) (users st) (ledger st)
          (notifications st) (notification_seq st) (f (categories st)).

(** ** Exceptions, responses and the handler monad *)

Inductive Exception :=
| Http404
| PermissionDenied (detail : string)
| NotAuthenticated
| ValueError (detail : string)
| AttributeError.

Inductive Result (A : Type) :=
| Ok (a : A)
| Raise (e : Exception).
Arguments Ok {A} a.
Arguments Raise {A} e.

Inductive Body :=
| ErrorBody (error : string)
| MessageBody (msg : string)
| StatusBody (msg : string) (note : option string)
| ReactionBody (publication_id user : Z) (action : string)
               (total_likes total_dislikes : Z).

Record Response := mkResponse {
  body : Body;
  status_code : Z
}.

Definition HTTP_200_OK : Z := 200.
Definition HTTP_400_BAD_REQUEST : Z := 400.

Definition M (A : Type) : Type := State → Result A * State.

Definition ret {A} (a : A) : M A := fun st => (Ok a, st).
Definition raise {A} (e : Exception) : M A := fun st => (Raise e, st).
Definition bind {A B} (m : M A) (k : A → M B) : M B :=
  fun st =>
    match m st with
    | (Ok a, st') => k a st'
    | (Raise e, st') => (Raise e, st')
    end.
Definition gets {A} (f : State → A) : M A := fun st => (Ok (f st), st).
Definition modify (f : State → State) : M unit := fun st => (Ok tt, f st).

Notation "'let*' x := m 'in' k" := (bind m (fun x => k))
  (at level 10, x name, m at level 100, k at level 200).
Notation "m >> k" := (bind m (fun _ => k))
  (at level 100, k at level 200, right associativity).

(** ** Object permission and detail retrieval *)

(** [IsAuthorOrEditor.has_object_permission] *)
Definition has_object_permission (user : User) (obj : Publication) : bool :=
  if String.eqb (role user) "editor" then true
  else if Z.eqb (author obj) (user_id user) then true
  else String.eqb (status obj) "approved".

(** The generic [get_object] of the detail view: look the row up by primary
    key, then run the object permission. *)
Definition super_get_object (pk : Z) (user : User) : M Publication :=
  let* found := gets (fun st => publications st !! pk) in
  match found with
  | None => raise Http404
  | Some obj =>
      if has_object_permission user obj then ret obj
      else raise (PermissionDenied "You do not have permission to perform this action.")
  end.

Definition with_views (p : Publication) (v : Z) : Publication :=
  mkPublication (pub_id p) (title p) (abstract p) (content p) (file p)
    (video_file p) (author p) (editor p) (status p) (rejection_note p)
    (pub_categories p) (keywords p) v.

Definition with_rejection_note (p : Publication) (n : option string)
    : Publication :=
  mkPublication (pub_id p) (title p) (abstract p) (content p) (file p)
    (video_file p) (author p) (editor p) (status p) n
    (pub_categories p) (keywords p) (views p).

(** [instance.save()]: every column of the row is written from the object
    held in memory. *)
Definition save (obj : Publication) : M unit :=
  modify (set_publications (fun t => <[pub_id obj := obj]> t)).

(** [instance.save(update_fields=["views"])] *)
Definition save_views (obj : Publication) : M unit :=
  modify (set_publications
            (alter (fun row => with_views row (views obj)) (pub_id obj))).

(** [instance.save(update_fields=["rejection_note"])] *)
Definition save_rejection_note (obj : Publication) : M unit :=
  modify (set_publications
            (alter (fun row => with_rejection_note row (rejection_note obj))
                   (pub_id obj))).

(** [Views.objects.filter(publication=..., user=...).exists()] *)
Definition views_exists (publication user : Z) (st : State) : bool :=
  match ledger st !! (publication, user) with
  | Some _ => true
  | None => false
  end.

(** [PublicationDetailView.get_object] *)
Definition get_object (pk : Z) (user : User) : M Publication :=
  let* publication := super_get_object pk user in
  let* seen := gets (views_exists (pub_id publication) (user_id user)) in
  if negb seen then
    let publication := with_views publication (views publication + 1) in
    save_views publication >>
    ret publication
  else ret publication.

(** ** Request payloads *)

(** A value of the request payload: JSON [null] or a string. *)
Inductive JValue :=
| JNull
| JStr (s : string).

(** The two keys of [request.data] read by [perform_update]; [None] stands
    for a key that is absent. *)
Record RequestData := mkRequestData {
  data_status : option JValue;
  data_rejection_note : option JValue
}.

(** [serializer.validated_data] of [PublicationSerializer], extended with
    the keyword arguments of [serializer.save(...)]: one entry per writable
    field, [None] when the key is not in the dictionary. *)
Record ValidatedData := mkValidatedData {
  vd_title : option string;
  vd_abstract : option string;
  vd_content : option string;
  vd_file : option (option string);
  vd_video_file : option (option string);
  vd_categories : option (list string);
  vd_keywords : option string;
  vd_status : option string;
  vd_rejection_note : option (option string);
  vd_author : option Z;
  vd_editor : option Z
}.

Definition empty_validated_data : ValidatedData :=
  mkValidatedData None None None None None None None None None None None.

(** [{**validated_data, 'editor': user, 'status': status_value}] *)
Definition with_editor_status (vd : ValidatedData) (e : Z) (s : string)
    : ValidatedData :=
  mkValidatedData (vd_title vd) (vd_abstract vd) (vd_content vd) (vd_file vd)
    (vd_video_file vd) (vd_categories vd) (vd_keywords vd) (Some s)
    (vd_rejection_note vd) (vd_author vd) (Some e).

(** [{**validated_data, 'author': user}] *)
Definition with_author (vd : ValidatedData) (a : Z) : ValidatedData :=
  mkValidatedData (vd_title vd) (vd_abstract vd) (vd_content vd) (vd_file vd)
    (vd_video_file vd) (vd_categories vd) (vd_keywords vd) (vd_status vd)
    (vd_rejection_note vd) (Some a) (vd_editor vd).

(** ** [PublicationSerializer] *)

(** The loop [for attr, value in validated_data.items(): setattr(...)],
    [categories] having been popped. *)
Definition setattrs (instance : Publication) (vd : ValidatedData)
    : Publication :=
  mkPublication
    (pub_id instance)
    (default (title instance) (vd_title vd))
    (default (abstract instance) (vd_abstract vd))
    (default (content instance) (vd_content vd))
    (default (file instance) (vd_file vd))
    (default (video_file instance) (vd_video_file vd))
    (default (author instance) (vd_author vd))
    (match vd_editor vd with Some e => Some e | None => editor instance end)
    (default (status instance) (vd_status vd))
    (default (rejection_note instance) (vd_rejection_note vd))
    (pub_categories instance)
    (default (keywords instance) (vd_keywords vd))
    (views instance).

Definition with_categories (p : Publication) (cs : list string)
    : Publication :=
  mkPublication (pub_id p) (title p) (abstract p) (content p) (file p)
    (video_file p) (author p) (editor p) (status p) (rejection_note p)
    cs (keywords p) (views p).

Definition mem_string (x : string) (l : list string) : bool :=
  existsb (String.eqb x) l.

(** [Category.objects.get_or_create(name=cat)] *)
Definition category_get_or_create (cat : string) : M string :=
  modify (set_categories
            (fun t => if mem_string cat t then t else (t ++ [cat])%list)) >>
  ret cat.

(** [instance.categories.add(category_obj)] on the row in the database. *)
Definition categories_add (pk : Z) (cat : string) : M unit :=
  modify (set_publications
            (alter (fun row =>
                      if mem_string cat (pub_categories row) then row
                      else with_categories row (pub_categories row ++ [cat])%list)
                   pk)).

(** [instance.categories.clear()] *)
Definition categories_clear (pk : Z) : M unit :=
  modify (set_publications (alter (fun row => with_categories row []) pk)).

Fixpoint add_categories (pk : Z) (cats : list string) : M unit :=
  match cats with
  | [] => ret tt
  | cat :: rest =>
      let* category_obj := category_get_or_create cat in
      categories_add pk category_obj >>
      add_categories pk rest
  end.

(** The categories of the row as the database has them after the
    many-to-many writes; the object in memory does not cache them. *)
Definition refresh_categories (instance : Publication) : M Publication :=
  let* row := gets (fun st => publications st !! pub_id instance) in
  ret (match row with
       | Some r => with_categories instance (pub_categories r)
       | None => instance
       end).

(** [PublicationSerializer.update] *)
Definition serializer_update (instance : Publication) (vd : ValidatedData)
    : M Publication :=
  let categories := vd_categories vd in
  let instance := setattrs instance vd in
  save instance >>
  match categories with
  | Some cats =>
      categories_clear (pub_id instance) >>
      add_categories (pub_id instance) cats >>
      refresh_categories instance
  | None => ret instance
  end.

(** [PublicationSerializer.create]: a fresh row with the next primary key,
    the columns not in [validated_data] at their defaults. *)
Definition serializer_create (vd : ValidatedData) : M Publication :=
  let* pk := gets (fun st => publication_seq st + 1) in
  let publication :=
    mkPublication pk
      (default "" (vd_title vd)) (default "" (vd_abstract vd))
      (default "" (vd_content vd)) (default None (vd_file vd))
      (default None (vd_video_file vd)) (default 0 (vd_author vd))
      (vd_editor vd) (default "pending" (vd_status vd))
      (default None (vd_rejection_note vd)) []
      (default "" (vd_keywords vd)) 0 in
  modify (fun st =>
            mkState (<[pk := publication]> (publications st)) pk (users st)
                    (ledger st) (notifications st) (notification_seq st)
                    (categories st)) >>
  add_categories pk (default [] (vd_categories vd)) >>
  refresh_categories publication.

(** [PublicationListCreateView.perform_create] *)
Definition perform_create (user : User) (vd : ValidatedData) : M Publication :=
  serializer_create (with_author vd (user_id user)).

(** ** [PublicationDetailView.perform_update] *)

(** The instant of the request: [timezone.now()] and its rendering by
    [strftime('%I:%M %p WAT, %B %d, %Y')]. *)
Record Clock := mkClock {
  now : Z;
  now_text : string
}.

(** Modelled from the spec: the column defaults of [Notification], whose
    model declaration is not part of the sources at hand: [is_read] starts
    false and [created_at] is the time of creation.
    [Notification.objects.create(user=..., message=..., related_publication=...)] *)
Definition notification_create (clk : Clock) (user : Z) (msg : string)
    (publication : Z) : M Notification :=
  let* pk := gets (fun st => notification_seq st + 1) in
  let n := mkNotification pk user msg false (now clk) publication in
  modify (fun st =>
            mkState (publications st) (publication_seq st) (users st)
                    (ledger st) (notifications st ++ [n]) pk
                    (categories st)) >>
  ret n.

(** [data.get('status')] with its truth value: a non-empty string. *)
Definition status_value_of (data : RequestData) : option string :=
  match data_status data with
  | Some (JStr s) => if PyStr.truthy s then Some s else None
  | _ => None
  end.

(** [s.strip() or None] *)
Definition strip_or_none (s : string) : option string :=
  let s := PyStr.strip s in
  if PyStr.truthy s then Some s else None.

(** [data.get('rejection_note', '').strip() or None]; a [null] in the
    payload has no [strip]. *)
Definition rejection_note_of (data : RequestData) : M (option string) :=
  match data_rejection_note data with
  | None => ret (strip_or_none "")
  | Some JNull => raise AttributeError
  | Some (JStr s) => ret (strip_or_none s)
  end.

Definition author_message (clk : Clock) (instance : Publication)
    (status_value : string) : string :=
  "Your publication '" ++ title instance ++ "' status changed to '"
    ++ status_value ++ "' at " ++ now_text clk ++ ".".

Definition editor_message (clk : Clock) (instance : Publication)
    (status_value : string) (user : User) : string :=
  "Publication '" ++ title instance ++ "' status updated to '"
    ++ status_value ++ "' by " ++ full_name user ++ " at "
    ++ now_text clk ++ ".".

(** [User.objects.filter(role='editor').exclude(id=user.id)] *)
Definition other_editors (user : User) (st : State) : list User :=
  List.filter
    (fun u => String.eqb (role u) "editor" && negb (Z.eqb (user_id u) (user_id user)))
    (users st).

Fixpoint notify_editors (clk : Clock) (instance : Publication)
    (status_value : string) (user : User) (editors : list User) : M unit :=
  match editors with
  | [] => ret tt
  | editor :: rest =>
      notification_create clk (user_id editor)
        (editor_message clk instance status_value user) (pub_id instance) >>
      notify_editors clk instance status_value user rest
  end.

Definition rejected_error : string :=
  "Rejected publications cannot be changed or updated.".

Definition perform_update (clk : Clock) (user : User) (data : RequestData)
    (vd : ValidatedData) (serializer_instance : Publication) : M Response :=
  let status_value := status_value_of data in
  let* rejection_note := rejection_note_of data in
  if String.eqb (status serializer_instance) "rejected"
     && String.eqb (role user) "editor"
  then raise (ValueError rejected_error)
  else
    (* [if user.role == 'editor' and status_value:] *)
    match (if String.eqb (role user) "editor" then status_value else None) with
    | Some status_value =>
        let* instance :=
          serializer_update serializer_instance
            (with_editor_status vd (user_id user) status_value) in
        let instance :=
          if String.eqb status_value "rejected"
          then with_rejection_note instance rejection_note
          else with_rejection_note instance None in
        save_rejection_note instance >>
        notification_create clk (author instance)
          (author_message clk instance status_value) (pub_id instance) >>
        let* editors := gets (other_editors user) in
        notify_editors clk instance status_value user editors >>
        ret (mkResponse
               (StatusBody "Publication status updated successfully."
                           rejection_note)
               HTTP_200_OK)
    | None =>
        (* [elif user == serializer.instance.author:] *)
        if Z.eqb (user_id user) (author serializer_instance) then
          serializer_update serializer_instance vd >>
          ret (mkResponse (MessageBody "Publication updated successfully.")
                          HTTP_200_OK)
        else
          (* [raise permissions.PermissionDenied(...)]: the name is looked up
             in the module [rest_framework.permissions], imported at the top
             of the file, which has no such attribute; evaluating the
             expression raises [AttributeError] before any exception object
             is made. *)
          raise AttributeError
    end.

(** ** [ViewsUpdateView.patch] *)

Definition default_views : Views := mkViews false false.

(** [Views.objects.get_or_create(publication=..., user=..., defaults=...)] *)
Definition views_get_or_create (publication user : Z) : M (Views * bool) :=
  let* found := gets (fun st => ledger st !! (publication, user)) in
  match found with
  | Some v => ret (v, false)
  | None =>
      modify (set_ledger (fun t => <[(publication, user) := default_views]> t)) >>
      ret (default_views, true)
  end.

(** [view_obj.save(update_fields=["user_liked", "user_disliked"])] *)
Definition save_views_row (publication user : Z) (view_obj : Views) : M unit :=
  modify (set_ledger (fun t => <[(publication, user) := view_obj]> t)).

(** Modelled from the spec: [Publication.total_likes] and
    [Publication.total_dislikes] are declared with the model, which is not
    part of the sources at hand; they count, on demand, the ledger rows of
    the publication whose flag is set. *)
Definition count_rows (flag : Views → bool) (publication : Z) (st : State)
    : Z :=
  Z.of_nat
    (length
       (List.filter (fun kv => Z.eqb (fst (fst kv)) publication && flag (snd kv))
                    (map_to_list (ledger st)))).

Definition total_likes (publication : Z) : M Z :=
  gets (count_rows user_liked publication).

Definition total_dislikes (publication : Z) : M Z :=
  gets (count_rows user_disliked publication).

Definition get_object_or_404 (pk : Z) : M Publication :=
  let* found := gets (fun st => publications st !! pk) in
  match found with
  | Some p => ret p
  | None => raise Http404
  end.

Definition already_liked : string :=
  "You have already liked this publication.".
Definition already_disliked : string :=
  "You have already disliked this publication.".

(** The tail of [patch]: write the two flags, then answer with the totals. *)
Definition patch_finish (user : User) (publication : Publication)
    (act : string) (view_obj : Views) : M Response :=
  save_views_row (pub_id publication) (user_id user) view_obj >>
  let* likes := total_likes (pub_id publication) in
  let* dislikes := total_dislikes (pub_id publication) in
  ret (mkResponse
         (ReactionBody (pub_id publication) (user_id user) act likes dislikes)
         HTTP_200_OK).

Definition invalid_action : Response :=
  mkResponse (ErrorBody "Invalid action. Use 'like' or 'dislike'.")
             HTTP_400_BAD_REQUEST.

Definition patch (user : User) (pk : Z) (action : option string)
    : M Response :=
  let* publication := get_object_or_404 pk in
  match action with
  | Some act =>
      if negb (String.eqb act "like" || String.eqb act "dislike") then
        ret invalid_action
      else
        let* got := views_get_or_create (pub_id publication) (user_id user) in
        let view_obj := fst got in
        if String.eqb act "like" then
          if user_liked view_obj then
            ret (mkResponse (ErrorBody already_liked) HTTP_400_BAD_REQUEST)
          else
            patch_finish user publication act (mkViews true false)
        else
          if user_disliked view_obj then
            ret (mkResponse (ErrorBody already_disliked) HTTP_400_BAD_REQUEST)
          else
            patch_finish user publication act (mkViews false true)
  | None => ret invalid_action
  end.

(** ** Notification views *)

(** [request.user]: a row of the user table or the anonymous user. *)
Inductive RequestUser :=
| AnonymousUser
| AuthUser (u : User).

(** [NotificationListView.get_queryset] and
    [NotificationMarkReadView.get_queryset] *)
Definition notifications_of (user : User) (st : State) : list Notification :=
  List.filter (fun n => Z.eqb (notif_user n) (user_id user)) (notifications st).

(** [order_by('-created_at')]: the later row first. *)
Definition newer_first (a b : Notification) : Prop :=
  created_at b <= created_at a.

Global Instance newer_first_dec : RelDecision newer_first.
Proof. intros a b. unfold newer_first. apply Z_le_dec. Defined.

Global Instance newer_first_total : Total newer_first.
Proof. intros a b. unfold newer_first. lia. Qed.

Global Instance newer_first_trans : Transitive newer_first.
Proof. intros a b c. unfold newer_first. lia. Qed.

(** [NotificationUnreadView.get_queryset]: [user.is_anonymous] holds of the
    anonymous user only, for whom the answer is
    [Notification.objects.none()].  The view reaches this method after its
    permission check only, see [notification_unread_view]. *)
Definition unread_queryset (user : RequestUser) (st : State)
    : list Notification :=
  match user with
  | AnonymousUser => []
  | AuthUser u =>
      merge_sort newer_first
        (List.filter
           (fun n => Z.eqb (notif_user n) (user_id u) && negb (is_read n))
           (notifications st))
  end.

(** [request.user.is_authenticated] *)
Definition is_authenticated (user : RequestUser) : bool :=
  match user with
  | AnonymousUser => false
  | AuthUser _ => true
  end.

(** [permission_classes = [permissions.IsAuthenticated]]: the framework
    checks the permission before the handler of the view runs.  A caller
    who is not authenticated is refused with [NotAuthenticated] when the
    request has authenticators, none of which succeeded, and with
    [PermissionDenied] when it has none; [authenticators] tells which, the
    settings that decide it not being part of the sources at hand. *)
Definition check_permissions (authenticators : bool) (user : RequestUser)
    : M unit :=
  if is_authenticated user then ret tt
  else if authenticators then raise NotAuthenticated
  else raise (PermissionDenied
                "You do not have permission to perform this action.").

(** [NotificationUnreadView]: the permission check of the view, then the
    rows of [get_queryset]. *)
Definition notification_unread_view (authenticators : bool)
    (user : RequestUser) : M (list Notification) :=
  check_permissions authenticators user >>
  gets (unread_queryset user).

(** [validated_data] of [NotificationSerializer]: its writable fields. *)
Record NotificationData := mkNotificationData {
  nd_message : option string;
  nd_is_read : option bool
}.

(** [NotificationSerializer.update], the assignment to the instance. *)
Definition notification_assign (instance : Notification)
    (validated_data : NotificationData) : Notification :=
  mkNotification (notif_id instance) (notif_user instance) (message instance)
    (default (is_read instance) (nd_is_read validated_data))
    (created_at instance) (related_publication instance).

(** [instance.save()] on a notification. *)
Definition notification_save (instance : Notification) : M unit :=
  modify (set_notifications
            (map (fun row => if Z.eqb (notif_id row) (notif_id instance)
                             then instance else row))).

(** [NotificationSerializer.update] *)
Definition notification_update (instance : Notification)
    (validated_data : NotificationData) : M Notification :=
  let instance := notification_assign instance validated_data in
  notification_save instance >>
  ret instance.

(** [NotificationMarkReadView]: the row is looked up in the caller's own
    notifications, then updated through the serializer. *)
Definition mark_read (user : User) (pk : Z) (validated_data : NotificationData)
    : M Notification :=
  let* found :=
    gets (fun st => List.find (fun n => Z.eqb (notif_id n) pk)
                              (notifications_of user st)) in
  match found with
  | None => raise Http404
  | Some instance => notification_update instance validated_data
  end.

Definition with_is_read (n : Notification) (b : bool) : Notification :=
  mkNotification (notif_id n) (notif_user n) (message n) b (created_at n)
                 (related_publication n).

(** [NotificationMarkAllReadView.patch] *)
Definition mark_all_read (user : User) : M Response :=
  let unread n := Z.eqb (notif_user n) (user_id user) && negb (is_read n) in
  let* any := gets (fun st => existsb unread (notifications st)) in
  if negb any then
    ret (mkResponse (MessageBody "No unread notifications to mark as read.")
                    HTTP_200_OK)
  else
    modify (set_notifications
              (map (fun n => if unread n then with_is_read n true else n))) >>
    ret (mkResponse (MessageBody "All notifications marked as read.")
                    HTTP_200_OK).

(** ** [PublicationListCreateView.get_queryset] *)

Inductive Field := FKeywords | FTitle | FAbstract.

(** Django [Q] objects, as far as the view builds them. *)
Inductive Q :=
| QEmpty
| QIcontains (f : Field) (keyword : string)
| QAuthor (user : Z)
| QStatus (s : string)
| QOr (a b : Q).

(** [a | b]: an empty [Q] is the neutral element. *)
Definition q_or (a b : Q) : Q :=
  match a, b with
  | QEmpty, _ => b
  | _, QEmpty => a
  | _, _ => QOr a b
  end.

Definition field_of (f : Field) (p : Publication) : string :=
  match f with
  | FKeywords => keywords p
  | FTitle => title p
  | FAbstract => abstract p
  end.

(** [[k.strip() for k in keywords.split(',') if k.strip()]] *)
Definition keyword_list_of (keywords : string) : list string :=
  map PyStr.strip
      (List.filter (fun k => PyStr.truthy (PyStr.strip k))
                   (PyStr.split_comma keywords)).

(** The loop [for keyword in keyword_list: keyword_queries |= ...]. *)
Definition keyword_queries_of (keyword_list : list string) : Q :=
  fold_left
    (fun keyword_queries keyword =>
       q_or keyword_queries
            (q_or (q_or (QIcontains FKeywords keyword)
                        (QIcontains FTitle keyword))
                  (QIcontains FAbstract keyword)))
    keyword_list QEmpty.

Section Listing.

(** The [icontains] lookup is evaluated by the database, whose collation
    decides what ignoring case means: [icontains value keyword]. *)
Variable icontains : string → string → bool.

Fixpoint q_matches (q : Q) (p : Publication) : bool :=
  match q with
  | QEmpty => true
  | QIcontains f keyword => icontains (field_of f p) keyword
  | QAuthor u => Z.eqb (author p) u
  | QStatus s => String.eqb (status p) s
  | QOr a b => q_matches a p || q_matches b p
  end.

(** [Publication.objects.all()] *)
Definition all_publications (st : State) : list Publication :=
  map snd (map_to_list (publications st)).

(** The [keywords] query parameter, when given and not empty, narrows the
    queryset. *)
Definition keyword_filter (keywords : option string)
    (queryset : list Publication) : list Publication :=
  match keywords with
  | Some keywords =>
      if PyStr.truthy keywords then
        List.filter (q_matches (keyword_queries_of (keyword_list_of keywords)))
                    queryset
      else queryset
  | None => queryset
  end.

Definition get_queryset (user : User) (keywords : option string)
    (st : State) : list Publication :=
  let queryset := all_publications st in
  let queryset := keyword_filter keywords queryset in
  if String.eqb (role user) "editor" then queryset
  else List.filter
         (q_matches (q_or (QAuthor (user_id user)) (QStatus "approved")))
         queryset.

End Listing.

(** A case-insensitive substring test over ASCII letters, as SQLite's
    [LIKE] performs it. *)
Definition lower_ascii (c : ascii) : ascii :=
  let n := N_of_ascii c in
  if ((65 <=? n) && (n <=? 90))%N then ascii_of_N (n + 32) else c.

Fixpoint lower (s : string) : string :=
  match s with
  | EmptyString => EmptyString
  | String c r => String (lower_ascii c) (lower r)
  end.

Fixpoint contains (s sub : string) : bool :=
  String.prefix sub s
  || match s with
     | EmptyString => false
     | String _ r => contains r sub
     end.

Definition ascii_icontains (value keyword : string) : bool :=
  contains (lower value) (lower keyword).

(** ** Field validators of the serializers *)

(** The outcome of a [validate_<field>] method: the value to store, or a
    [serializers.ValidationError] with its message. *)
Inductive Validation (A : Type) :=
| Valid (value : A)
| Invalid (detail : string).
Arguments Valid {A} value.
Arguments Invalid {A} detail.

(** [len(value)] *)
Definition len (s : string) : Z := Z.of_nat (String.length s).

(** [PublicationSerializer.validate_title] *)
Definition validate_title (value : string) : Validation string :=
  if negb (PyStr.truthy (PyStr.strip value)) then
    Invalid "Title cannot be empty or just whitespace."
  else if (len value <? 10)%Z then
    Invalid "Title must be at least 10 characters long."
  else Valid value.

(** [PublicationSerializer.validate_abstract] *)
Definition validate_abstract (value : string) : Validation string :=
  if negb (PyStr.truthy (PyStr.strip value)) then
    Invalid "Abstract cannot be empty or just whitespace."
  else if (len value <? 200)%Z then
    Invalid "Abstract must be at least 200 characters long."
  else if (1000 <? len value)%Z then
    Invalid "Abrast cannot exceed 1000 characters long."
  else Valid value.

(** [PublicationSerializer.validate_content] *)
Definition validate_content (value : string) : Validation string :=
  if negb (PyStr.truthy (PyStr.strip value)) then
    Invalid "Content cannot be empty or just whitespace."
  else if (len value <? 500)%Z then
    Invalid "Content must be at least 1000 characters long."
  else if (10000 <? len value)%Z then
    Invalid "Content cannot exceed 10000 characters."
  else Valid value.

(** [NotificationSerializer.validate_message] *)
Definition validate_message (value : string) : Validation string :=
  if negb (PyStr.truthy (PyStr.strip value)) then
    Invalid "Message cannot be empty or just whitespace."
  else if (1000 <? len value)%Z then
    Invalid "Message cannot exceed 1000 characters."
  else Valid value.

(** [','.join(keywords)] *)
Fixpoint join_comma (l : list string) : string :=
  match l with
  | [] => ""
  | x :: rest =>
      match rest with
      | [] => x
      | _ :: _ => x ++ "," ++ join_comma rest
      end
  end.

(** [PublicationSerializer.validate_keywords] *)
Definition validate_keywords (value : string) : Validation string :=
  if PyStr.truthy value then
    if (500 <? len value)%Z then
      Invalid "Keywords cannot exceed 500 characters."
    else
      let keywords := keyword_list_of value in
      if (20 <? Z.of_nat (length keywords))%Z then
        Invalid "Cannot have more than 20 keywords."
      else Valid (join_comma keywords)
  else Valid value.

(** [str.lower] on one code point below 256: the letters A to Z and the
    accented capitals from 192 to 222, the multiplication sign apart. *)
Definition py_lower_char (c : ascii) : ascii :=
  let n := N_of_ascii c in
  if ((65 <=? n) && (n <=? 90)
      || (192 <=? n) && (n <=? 222) && negb (n =? 215))%N
  then ascii_of_N (n + 32) else c.

Fixpoint py_lower (s : string) : string :=
  match s with
  | EmptyString => EmptyString
  | String c r => String (py_lower_char c) (py_lower r)
  end.

(** [s.endswith(suffix)] *)
Fixpoint endswith (s suffix : string) : bool :=
  String.eqb s suffix
  || match s with
     | EmptyString => false
     | String _ r => endswith r suffix
     end.

(** [s.endswith((suffix, ...))] *)
Definition endswith_any (s : string) (suffixes : list string) : bool :=
  existsb (endswith s) suffixes.

(** An uploaded file, as far as the validators look at it. *)
Record UploadedFile := mkUploadedFile {
  file_name : string;
  file_size : Z
}.

(** The truth value of a field value: [None] is false, and a file is true
    when it has a name. *)
Definition file_truthy (value : option UploadedFile) : bool :=
  match value with
  | Some f => PyStr.truthy (file_name f)
  | None => false
  end.

(** The common shape of [validate_file] and [validate_video_file]. *)
Definition validate_upload (limit : Z) (too_large : string)
    (suffixes : list string) (wrong_type : string)
    (value : option UploadedFile) : Validation (option UploadedFile) :=
  match value with
  | Some f =>
      if file_truthy value then
        if (limit <? file_size f)%Z then Invalid too_large
        else if negb (endswith_any (py_lower (file_name f)) suffixes)
        then Invalid wrong_type
        else Valid value
      else Valid value
  | None => Valid value
  end.

(** [PublicationSerializer.validate_file] *)
Definition validate_file (value : option UploadedFile)
    : Validation (option UploadedFile) :=
  validate_upload (10 * 1024 * 1024) "File size cannot exceed 10MB."
    [".pdf"; ".doc"; ".docx"] "Only PDF and Word documents are allowed."
    value.

(** [PublicationSerializer.validate_video_file] *)
Definition validate_video_file (value : option UploadedFile)
    : Validation (option UploadedFile) :=
  validate_upload (50 * 1024 * 1024) "Video file size cannot exceed 50MB."
    [".mp4"; ".avi"; ".mov"] "Only MP4, AVI, or MOV video files are allowed."
    value.

(** ** Sequences of requests *)

(** [n] successive retrievals of the same publication by the same user. *)
Fixpoint retrieve_times (n : nat) (pk : Z) (user : User) (st : State)
    : State :=
  match n with
  | O => st
  | S n => retrieve_times n pk user (snd (get_object pk user st))
  end.

(** One reaction request. *)
Record Reaction := mkReaction {
  reaction_user : User;
  reaction_pk : Z;
  reaction_action : option string
}.

Definition react (r : Reaction) (st : State) : State :=
  snd (patch (reaction_user r) (reaction_pk r) (reaction_action r) st).

Definition react_all (rs : list Reaction) (st : State) : State :=
  fold_left (fun st r => react r st) rs st.

(** The two flags of a ledger row are not both set. *)
Definition exclusive (v : Views) : bool :=
  negb (user_liked v && user_disliked v).

Definition ledger_exclusive (st : State) : Prop :=
  map_Forall (fun _ v => exclusive v = true) (ledger st).

(** Every row of the publication table is stored under its own key. *)
Definition keyed (st : State) : Prop :=
  ∀ pk p, publications st !! pk = Some p → pub_id p = pk.

(** The views counter of a stored publication. *)
Definition views_of (pk : Z) (st : State) : option Z :=
  views <$> publications st !! pk.

(** ** Vocabulary of the statements *)

(** The tables that a write to the publication table leaves alone. *)
Definition frame (st st' : State) : Prop :=
  users st' = users st ∧ ledger st' = ledger st
  ∧ notifications st' = notifications st
  ∧ notification_seq st' = notification_seq st.

(** Two rows that differ at most in their categories. *)
Definition same_columns (p q : Publication) : Prop :=
  q = with_categories p (pub_categories q).

(** What a notification created for [recipient] about [publication]
    looks like. *)
Definition fresh_notification (clk : Clock) (recipient : Z) (msg : string)
    (publication : Z) (n : Notification) : Prop :=
  notif_user n = recipient ∧ message n = msg ∧ is_read n = false
  ∧ created_at n = now clk ∧ related_publication n = publication.

(** The note of the request as [perform_update] reads it, when the payload
    does not hold a [null] there. *)
Definition provided_note (data : RequestData) : option string :=
  match data_rejection_note data with
  | Some (JStr s) => strip_or_none s
  | _ => None
  end.

(** The note a status change leaves on the publication. *)
Definition stored_note (status_value : string) (data : RequestData)
    : option string :=
  if String.eqb status_value "rejected" then provided_note data else None.

Definition status_updated (note : option string) : Response :=
  mkResponse (StatusBody "Publication status updated successfully." note)
             HTTP_200_OK.

Definition publication_updated : Response :=
  mkResponse (MessageBody "Publication updated successfully.") HTTP_200_OK.

(** The identifiers of the notification table are what they were: no row
    was created. *)
Definition creates_no_notification (st st' : State) : Prop :=
  map notif_id (notifications st') = map notif_id (notifications st).

(** What the last filter of [get_queryset] keeps. *)
Definition own_or_approved (user : User) (p : Publication) : bool :=
  Z.eqb (author p) (user_id user) || String.eqb (status p) "approved".

(** Two notifications that differ at most in [is_read]. *)
Definition same_but_is_read (n n' : Notification) : Prop :=
  notif_id n' = notif_id n ∧ notif_user n' = notif_user n
  ∧ message n' = message n ∧ created_at n' = created_at n
  ∧ related_publication n' = related_publication n.

(** ** Sample data *)

(** A reader, an approved publication of another user, and a database
    holding them, without any ledger row. *)
Definition reader : User := mkUser 7 "author" "Reader".

Definition approved_publication : Publication :=
  mkPublication 1 "A study of tides" "abstract" "content" None None 4 None
                "approved" None [] "tides,moon" 0.

Definition reading_room : State :=
  mkState {[ 1 := approved_publication ]} 1
          [mkUser 4 "author" "Writer"; reader] ∅ [] 0 [].

Definition liked_room : State :=
  set_ledger (fun t => <[(1, 7) := mkViews true false]> t) reading_room.

(** A newsroom: one writer, two editors and a reader; a pending and a
    rejected publication of the writer. *)
Definition writer : User := mkUser 4 "author" "Writer".
Definition chief : User := mkUser 2 "editor" "Chief".
Definition deputy : User := mkUser 3 "editor" "Deputy".

Definition pending_publication : Publication :=
  mkPublication 1 "A study of tides" "abstract" "content" None None 4 None
                "pending" (Some "stale note") [] "tides,moon" 0.

Definition rejected_publication : Publication :=
  mkPublication 2 "On the moon" "abstract" "content" None None 4 (Some 2)
                "rejected" (Some "too short") [] "moon" 0.

Definition newsroom : State :=
  mkState {[ 1 := pending_publication; 2 := rejected_publication ]} 2
          [writer; chief; deputy; reader] ∅ [] 0 [].

Definition noon : Clock := mkClock 1200 "12:00 PM WAT, January 01, 2025".

Definition retitle : ValidatedData :=
  mkValidatedData (Some "On the moon, revised") None None None None None
                  None None None None None.

Definition no_data : RequestData := mkRequestData None None.

Definition approve_with_note : RequestData :=
  mkRequestData (Some (JStr "approved")) (Some (JStr "too short")).

Definition reject_with_note : RequestData :=
  mkRequestData (Some (JStr "rejected")) (Some (JStr " too short ")).

(** The writer's inbox after a rejection, and a payload that tries to
    rewrite the message along with the read flag. *)
Definition inbox : State :=
  set_notifications
    (fun _ =>
       [mkNotification 1 4 "Your publication was rejected." false 1200 1;
        mkNotification 2 3 "Publication status updated." false 1200 1])
    newsroom.

Definition read_and_rewrite : NotificationData :=
  mkNotificationData (Some "forged") (Some true).

(** ** Further vocabulary *)

(** One keyword against the three searched fields. *)
Definition keyword_hits (icontains : string → string → bool)
    (p : Publication) (keyword : string) : bool :=
  icontains (keywords p) keyword || icontains (title p) keyword
  || icontains (abstract p) keyword.

(** The step of the category writes: a name is appended unless it is
    there. *)
Definition add_if_new (l : list string) (c : string) : list string :=
  if mem_string c l then l else (l ++ [c])%list.

Definition nothing_unread : Response :=
  mkResponse (MessageBody "No unread notifications to mark as read.")
             HTTP_200_OK.

(** Every character is white space. *)
Fixpoint all_space (s : string) : bool :=
  match s with
  | EmptyString => true
  | String c r => PyStr.is_space c && all_space r
  end.

(** No character is a comma. *)
Fixpoint comma_free (s : string) : bool :=
  match s with
  | EmptyString => true
  | String c r => negb (Ascii.eqb c ","%char) && comma_free r
  end.

(** The length of the joined string, counted with one separator per
    part. *)
Fixpoint weight (l : list string) : nat :=
  match l with
  | [] => 0
  | x :: r => S (String.length x) + weight r
  end.

(** ** The handler monad: equations *)

Lemma bind_ok {A B} (m : M A) (k : A → M B) st a st1 :
  m st = (Ok a, st1) → bind m k st = k a st1.
Proof. intros H. unfold bind. now rewrite H. Qed.

Lemma bind_raise {A B} (m : M A) (k : A → M B) st e st1 :
  m st = (Raise e, st1) → bind m k st = (Raise e, st1).
Proof. intros H. unfold bind. now rewrite H. Qed.

Lemma string_eqb_neq (a b : string) : a ≠ b → String.eqb a b = false.
Proof. intros H. now apply String.eqb_neq. Qed.

Ltac run := unfold bind, ret, raise, gets, modify; cbn beta iota.

(** ** Retrieval and the views counter *)

Lemma get_object_unseen st pk user p :
  publications st !! pk = Some p →
  pub_id p = pk →
  has_object_permission user p = true →
  ledger st !! (pk, user_id user) = None →
  get_object pk user st =
    (Ok (with_views p (views p + 1)),
     set_publications (alter (fun row => with_views row (views p + 1)) pk) st).
Proof.
  intros Hp Hk Hperm Hl.
  unfold get_object, super_get_object, save_views, views_exists.
  run. rewrite Hp, Hperm. run. rewrite Hk, Hl.
  cbn [negb with_views pub_id views]. now rewrite Hk.
Qed.

Lemma get_object_seen st pk user p v :
  publications st !! pk = Some p →
  pub_id p = pk →
  has_object_permission user p = true →
  ledger st !! (pk, user_id user) = Some v →
  get_object pk user st = (Ok p, st).
Proof.
  intros Hp Hk Hperm Hl.
  unfold get_object, super_get_object, views_exists.
  run. rewrite Hp, Hperm. run. rewrite Hk, Hl. now run.
Qed.

(** Without a reaction by the user, every retrieval counts again. *)
Lemma retrieve_times_unseen n : ∀ st pk user p,
  publications st !! pk = Some p →
  pub_id p = pk →
  has_object_permission user p = true →
  ledger st !! (pk, user_id user) = None →
  views_of pk (retrieve_times n pk user st) = Some (views p + Z.of_nat n).
Proof.
  induction n as [|n IH]; intros st pk user p Hp Hk Hperm Hl.
  - unfold views_of. cbn. rewrite Hp. cbn. f_equal. lia.
  - cbn [retrieve_times].
    rewrite (get_object_unseen st pk user p Hp Hk Hperm Hl). cbn [snd].
    rewrite (IH _ pk user (with_views p (views p + 1))).
    + cbn. f_equal. lia.
    + cbn. rewrite lookup_alter_eq, Hp. reflexivity.
    + exact Hk.
    + exact Hperm.
    + exact Hl.
Qed.

(** C1 (the code departs from the claim): two retrievals of publication 1
    by the same reader, who never reacted, leave the views counter at 2 and
    not at 1, because [get_object] tests for a ledger row that it never
    creates; and a reader who reacted before retrieving is not counted at
    all. *)
Theorem C1_every_retrieval_counts :
  views_of 1 reading_room = Some 0
  ∧ views_of 1 (retrieve_times 1 1 reader reading_room) = Some 1
  ∧ views_of 1 (retrieve_times 2 1 reader reading_room) = Some 2
  ∧ ledger (retrieve_times 2 1 reader reading_room) !! (1, 7) = None
  ∧ views_of 1
      (retrieve_times 2 1 reader
         (react (mkReaction reader 1 (Some "like")) reading_room))
    = Some 0.
Proof. repeat split; vm_compute; reflexivity. Qed.

(** ** The reaction ledger *)

Lemma get_object_or_404_found st pk p :
  publications st !! pk = Some p → get_object_or_404 pk st = (Ok p, st).
Proof. intros H. unfold get_object_or_404. run. now rewrite H. Qed.

Lemma get_object_or_404_missing st pk :
  publications st !! pk = None → get_object_or_404 pk st = (Raise Http404, st).
Proof. intros H. unfold get_object_or_404. run. now rewrite H. Qed.

Lemma patch_finish_state user p act v st :
  snd (patch_finish user p act v st) =
  set_ledger (fun t => <[(pub_id p, user_id user) := v]> t) st.
Proof. reflexivity. Qed.

(** What a reaction request does to the ledger: nothing, or one row is
    written with exactly one flag up, after having been created if it was
    missing. *)
Lemma patch_ledger user pk action st :
  let st' := snd (patch user pk action st) in
  ledger st' = ledger st
  ∨ (∃ k v, exclusive v = true ∧ ledger st' = <[k := v]> (ledger st))
  ∨ (∃ k v, exclusive v = true
            ∧ ledger st' = <[k := v]> (<[k := default_views]> (ledger st))).
Proof.
  unfold patch. run.
  destruct (get_object_or_404 pk st) as [[p|e] st1] eqn:Hget;
    unfold get_object_or_404 in Hget; revert Hget; run;
    destruct (publications st !! pk); intros Hget; inversion Hget; subst;
    cbn [snd]; [|now left].
  destruct action as [act|]; [|now left].
  destruct (negb _); [now left|].
  unfold views_get_or_create. run.
  destruct (ledger st1 !! (pub_id p, user_id user)) as [v|] eqn:Hl; run; cbn [fst].
  - destruct (String.eqb act "like").
    + destruct (user_liked v); [now left|].
      right; left. exists (pub_id p, user_id user), (mkViews true false).
      split; reflexivity.
    + destruct (user_disliked v); [now left|].
      right; left. exists (pub_id p, user_id user), (mkViews false true).
      split; reflexivity.
  - destruct (String.eqb act "like"); cbn [default_views user_liked user_disliked];
      right; right.
    + exists (pub_id p, user_id user), (mkViews true false). split; reflexivity.
    + exists (pub_id p, user_id user), (mkViews false true). split; reflexivity.
Qed.

Lemma react_exclusive r st :
  ledger_exclusive st → ledger_exclusive (react r st).
Proof.
  intros Hex. unfold react, ledger_exclusive in *.
  destruct (patch_ledger (reaction_user r) (reaction_pk r) (reaction_action r) st)
    as [H|[(k & v & Hv & H)|(k & v & Hv & H)]]; rewrite H.
  - exact Hex.
  - apply map_Forall_insert_2; [exact Hv|exact Hex].
  - apply map_Forall_insert_2; [exact Hv|].
    apply map_Forall_insert_2; [reflexivity|exact Hex].
Qed.

Lemma react_all_exclusive rs : ∀ st,
  ledger_exclusive st → ledger_exclusive (react_all rs st).
Proof.
  induction rs as [|r rs IH]; intros st Hex; [exact Hex|].
  cbn. apply IH. now apply react_exclusive.
Qed.

Lemma patch_publications user pk action st :
  publications (snd (patch user pk action st)) = publications st.
Proof.
  unfold patch. run.
  destruct (get_object_or_404 pk st) as [[p|e] st1] eqn:Hget;
    unfold get_object_or_404 in Hget; revert Hget; run;
    destruct (publications st !! pk); intros Hget; inversion Hget; subst;
    cbn [snd]; [|reflexivity].
  destruct action as [act|]; [|reflexivity].
  destruct (negb _); [reflexivity|].
  unfold views_get_or_create. run.
  destruct (ledger st1 !! (pub_id p, user_id user)) as [v|]; run; cbn [fst];
    destruct (String.eqb act "like");
    cbn [default_views user_liked user_disliked];
    try destruct (user_liked v); try destruct (user_disliked v); reflexivity.
Qed.

(** A dislike on an existing publication leaves the caller's row disliked
    and not liked, provided the row was not in both states before. *)
Lemma dislike_row user pk p st :
  publications st !! pk = Some p → pub_id p = pk →
  ledger_exclusive st →
  ledger (snd (patch user pk (Some "dislike") st)) !! (pk, user_id user)
  = Some (mkViews false true).
Proof.
  intros Hp Hk Hex. unfold patch. run.
  rewrite (get_object_or_404_found st pk p Hp).
  cbn [negb String.eqb Ascii.eqb Bool.eqb orb].
  unfold views_get_or_create. run. rewrite Hk.
  destruct (ledger st !! (pk, user_id user)) as [v|] eqn:Hl; run; cbn [fst].
  - destruct (user_disliked v) eqn:Hv.
    + cbn [snd]. rewrite Hl. f_equal.
      specialize (Hex _ _ Hl). cbn in Hex. unfold exclusive in Hex.
      destruct v as [l d]. cbn in *. subst d. destruct l; [discriminate|reflexivity].
    + rewrite patch_finish_state, Hk. cbn. apply lookup_insert_eq.
  - cbn [default_views user_disliked]. rewrite patch_finish_state, Hk. cbn.
    apply lookup_insert_eq.
Qed.

Lemma ledger_exclusive_empty st : ledger st = ∅ → ledger_exclusive st.
Proof. intros H. unfold ledger_exclusive. rewrite H. apply map_Forall_empty. Qed.

(** C6: from a ledger in which no row has both flags up (the empty ledger,
    or rows as [get_or_create] makes them), every sequence of reactions
    leaves a ledger in which no row has both flags up; and a like followed
    at once by a dislike of the same publication by the same user leaves
    the row disliked and not liked. *)
Theorem C6_flags_never_both (st : State) :
  ledger_exclusive st →
  (∀ rs, ledger_exclusive (react_all rs st))
  ∧ (∀ user pk p,
       publications st !! pk = Some p → pub_id p = pk →
       ledger (react_all [mkReaction user pk (Some "like");
                          mkReaction user pk (Some "dislike")] st)
         !! (pk, user_id user)
       = Some (mkViews false true)).
Proof.
  intros Hex. split.
  - intros rs. now apply react_all_exclusive.
  - intros user pk p Hp Hk. cbn [react_all fold_left].
    set (st1 := react (mkReaction user pk (Some "like")) st).
    unfold react at 1. cbn [reaction_user reaction_pk reaction_action].
    apply dislike_row with (p := p).
    + subst st1. unfold react. now rewrite patch_publications.
    + exact Hk.
    + subst st1. now apply react_exclusive.
Qed.

Lemma C6_flags_never_both_witness :
  ledger_exclusive reading_room
  ∧ ledger_exclusive
      (react_all [mkReaction reader 1 (Some "like");
                  mkReaction reader 1 (Some "like");
                  mkReaction reader 1 (Some "dislike")] reading_room)
  ∧ ledger (react_all [mkReaction reader 1 (Some "like");
                       mkReaction reader 1 (Some "dislike")] reading_room)
      !! (1, 7)
    = Some (mkViews false true).
Proof.
  assert (H : ledger_exclusive reading_room)
    by (apply ledger_exclusive_empty; reflexivity).
  split; [exact H|]. split.
  - apply (proj1 (C6_flags_never_both reading_room H)).
  - apply (proj2 (C6_flags_never_both reading_room H) reader 1 approved_publication);
      reflexivity.
Defined.

(** C7: when the caller's ledger row already has the requested flag up, the
    reaction is refused with the "already liked" or "already disliked"
    answer (status 400) and the database is left exactly as it was. *)
Theorem C7_duplicate_reaction_refused st user pk p v act :
  publications st !! pk = Some p → pub_id p = pk →
  ledger st !! (pk, user_id user) = Some v →
  (act = "like" ∧ user_liked v = true)
  ∨ (act = "dislike" ∧ user_disliked v = true) →
  patch user pk (Some act) st =
    (Ok (mkResponse
           (ErrorBody (if String.eqb act "like" then already_liked
                       else already_disliked))
           HTTP_400_BAD_REQUEST),
     st).
Proof.
  intros Hp Hk Hl Hdup. unfold patch. run.
  rewrite (get_object_or_404_found st pk p Hp).
  unfold views_get_or_create. run. rewrite Hk.
  destruct Hdup as [[-> Hv]|[-> Hv]];
    cbn [negb String.eqb Ascii.eqb Bool.eqb orb];
    rewrite Hl; run; cbn [fst]; rewrite Hv; reflexivity.
Qed.

Lemma C7_duplicate_reaction_refused_witness :
  patch reader 1 (Some "like") liked_room =
    (Ok (mkResponse (ErrorBody already_liked) HTTP_400_BAD_REQUEST), liked_room).
Proof.
  apply (C7_duplicate_reaction_refused liked_room reader 1 approved_publication
           (mkViews true false) "like");
    [reflexivity | reflexivity | reflexivity | left; split; reflexivity].
Defined.

(** ** Status changes and content edits *)

Lemma frame_refl st : frame st st.
Proof. repeat split. Qed.

Lemma frame_trans a b c : frame a b → frame b c → frame a c.
Proof.
  intros (H1 & H2 & H3 & H4) (K1 & K2 & K3 & K4).
  repeat split; congruence.
Qed.

Lemma same_columns_refl p : same_columns p p.
Proof. now destruct p. Qed.

Lemma same_columns_with p cs : same_columns p (with_categories p cs).
Proof. reflexivity. Qed.

Lemma same_columns_trans p q r :
  same_columns p q → same_columns q r → same_columns p r.
Proof. unfold same_columns. intros -> ->. reflexivity. Qed.

Lemma add_categories_spec pk cats : ∀ st row,
  publications st !! pk = Some row →
  ∃ st' row',
    add_categories pk cats st = (Ok tt, st')
    ∧ publications st' !! pk = Some row' ∧ same_columns row row'
    ∧ (∀ k, k ≠ pk → publications st' !! k = publications st !! k)
    ∧ frame st st'.
Proof.
  induction cats as [|cat rest IH]; intros st row Hrow.
  - exists st, row. cbn. run.
    repeat split; auto using same_columns_refl.
  - cbn [add_categories]. unfold category_get_or_create, categories_add. run.
    set (st1 := set_publications _ (set_categories _ st)).
    destruct (IH st1
                (if mem_string cat (pub_categories row) then row
                 else with_categories row (pub_categories row ++ [cat])%list))
      as (st' & row' & Hrun & Hrow' & Hsame & Hother & Hframe).
    { subst st1. cbn. rewrite lookup_alter_eq, Hrow. reflexivity. }
    exists st', row'. rewrite Hrun. split; [reflexivity|].
    split; [exact Hrow'|]. split.
    { eapply same_columns_trans; [|exact Hsame].
      destruct (mem_string _ _); auto using same_columns_refl, same_columns_with. }
    split.
    { intros k Hk. rewrite (Hother k Hk). subst st1. cbn.
      now rewrite lookup_alter_ne. }
    eapply frame_trans; [|exact Hframe]. subst st1. repeat split.
Qed.

(** [PublicationSerializer.update] always succeeds: the row of the instance
    holds the assigned attributes, and only that row is written. *)
Lemma serializer_update_spec instance vd st :
  ∃ st' instance',
    serializer_update instance vd st = (Ok instance', st')
    ∧ publications st' !! pub_id instance = Some instance'
    ∧ same_columns (setattrs instance vd) instance'
    ∧ (∀ k, k ≠ pub_id instance → publications st' !! k = publications st !! k)
    ∧ frame st st'.
Proof.
  unfold serializer_update, save. run.
  set (inst1 := setattrs instance vd).
  assert (Hid : pub_id inst1 = pub_id instance) by reflexivity.
  set (st1 := set_publications _ st).
  assert (H1 : publications st1 !! pub_id instance = Some inst1).
  { subst st1. cbn [publications set_publications]. rewrite Hid.
    apply lookup_insert_eq. }
  assert (O1 : ∀ k, k ≠ pub_id instance →
                 publications st1 !! k = publications st !! k).
  { intros k Hk. subst st1. cbn [publications set_publications]. rewrite Hid.
    now rewrite lookup_insert_ne. }
  destruct (vd_categories vd) as [cats|].
  - unfold categories_clear, refresh_categories. run. rewrite Hid.
    set (st2 := set_publications _ st1).
    destruct (add_categories_spec (pub_id instance) cats st2
                (with_categories inst1 []))
      as (st' & row' & Hrun & Hrow' & Hsame & Hother & Hframe).
    { subst st2. cbn [publications set_publications].
      rewrite lookup_alter_eq, H1. reflexivity. }
    rewrite Hrun. rewrite Hrow'.
    assert (Hs : same_columns inst1 row').
    { eapply same_columns_trans; [apply same_columns_with|exact Hsame]. }
    assert (E : with_categories inst1 (pub_categories row') = row')
      by (symmetry; exact Hs).
    exists st', row'. rewrite E. split; [reflexivity|].
    split; [exact Hrow'|]. split; [exact Hs|]. split.
    + intros k Hk. rewrite (Hother k Hk). subst st2.
      cbn [publications set_publications].
      rewrite lookup_alter_ne by congruence. now apply O1.
    + eapply frame_trans; [|exact Hframe]. subst st2 st1. repeat split.
  - exists st1, inst1. split; [reflexivity|]. split; [exact H1|].
    split; [apply same_columns_refl|]. split; [exact O1|].
    subst st1. repeat split.
Qed.

Lemma notification_create_spec clk recipient msg publication st :
  ∃ n st',
    notification_create clk recipient msg publication st = (Ok n, st')
    ∧ fresh_notification clk recipient msg publication n
    ∧ notifications st' = (notifications st ++ [n])%list
    ∧ publications st' = publications st
    ∧ users st' = users st ∧ ledger st' = ledger st.
Proof.
  unfold notification_create. run.
  eexists _, _. split; [reflexivity|]. repeat split.
Qed.

Lemma notify_editors_spec clk instance status_value user editors : ∀ st,
  ∃ st' created,
    notify_editors clk instance status_value user editors st = (Ok tt, st')
    ∧ notifications st' = (notifications st ++ created)%list
    ∧ Forall2 (fun n e =>
                 fresh_notification clk (user_id e)
                   (editor_message clk instance status_value user)
                   (pub_id instance) n)
              created editors
    ∧ publications st' = publications st
    ∧ users st' = users st ∧ ledger st' = ledger st.
Proof.
  induction editors as [|e rest IH]; intros st.
  - exists st, []. cbn. run. rewrite app_nil_r. repeat split. constructor.
  - cbn [notify_editors].
    destruct (notification_create_spec clk (user_id e)
                (editor_message clk instance status_value user)
                (pub_id instance) st)
      as (n & st1 & Hrun1 & Hn & Hns1 & Hp1 & Hu1 & Hl1).
    destruct (IH st1) as (st' & created & Hrun & Hns & Hall & Hp & Hu & Hl).
    exists st', (n :: created).
    rewrite (bind_ok _ _ _ _ _ Hrun1), Hrun.
    split; [reflexivity|]. split.
    { rewrite Hns, Hns1, <- app_assoc. reflexivity. }
    split; [constructor; assumption|].
    repeat split; congruence.
Qed.

Lemma rejection_note_of_ok data st :
  data_rejection_note data ≠ Some JNull →
  rejection_note_of data st = (Ok (provided_note data), st).
Proof.
  unfold rejection_note_of, provided_note.
  destruct (data_rejection_note data) as [[|s]|]; intros H;
    [congruence|reflexivity|reflexivity].
Qed.

Lemma rejection_note_of_state data st :
  snd (rejection_note_of data st) = st.
Proof.
  unfold rejection_note_of.
  destruct (data_rejection_note data) as [[|s]|]; reflexivity.
Qed.

(** The editor's status change, step by step. *)
Lemma perform_update_status clk user data vd instance st sv :
  role user = "editor" →
  status instance ≠ "rejected" →
  status_value_of data = Some sv →
  data_rejection_note data ≠ Some JNull →
  ∃ st' p' n_author n_editors,
    perform_update clk user data vd instance st
      = (Ok (status_updated (provided_note data)), st')
    ∧ publications st' !! pub_id instance = Some p'
    ∧ same_columns
        (with_rejection_note
           (setattrs instance (with_editor_status vd (user_id user) sv))
           (stored_note sv data))
        p'
    ∧ (∀ k, k ≠ pub_id instance → publications st' !! k = publications st !! k)
    ∧ users st' = users st ∧ ledger st' = ledger st
    ∧ notifications st' = (notifications st ++ n_author :: n_editors)%list
    ∧ fresh_notification clk (author p') (author_message clk p' sv)
        (pub_id instance) n_author
    ∧ Forall2 (fun n e =>
                 fresh_notification clk (user_id e)
                   (editor_message clk p' sv user) (pub_id instance) n)
              n_editors (other_editors user st).
Proof.
  intros Hrole Hst Hsv Hnote.
  unfold perform_update.
  rewrite (bind_ok _ _ _ _ _ (rejection_note_of_ok data st Hnote)).
  rewrite (string_eqb_neq _ _ Hst), Hrole, Hsv.
  cbn [andb String.eqb Ascii.eqb Bool.eqb].
  destruct (serializer_update_spec instance
              (with_editor_status vd (user_id user) sv) st)
    as (st1 & inst1 & Hrun1 & Hrow1 & Hsame1 & Hother1 & Hu1 & Hl1 & Hn1 & Hq1).
  rewrite (bind_ok _ _ _ _ _ Hrun1).
  assert (Hid1 : pub_id inst1 = pub_id instance).
  { unfold same_columns in Hsame1. rewrite Hsame1. reflexivity. }
  set (p' := with_rejection_note inst1 (stored_note sv data)).
  assert (Hp' : (if String.eqb sv "rejected"
                 then with_rejection_note inst1 (provided_note data)
                 else with_rejection_note inst1 None) = p').
  { subst p'. unfold stored_note. now destruct (String.eqb sv "rejected"). }
  rewrite Hp'. clear Hp'.
  assert (Hidp : pub_id p' = pub_id instance) by exact Hid1.
  unfold save_rejection_note at 1. unfold bind at 1, modify at 1.
  set (st2 := set_publications _ st1).
  assert (Hrow2 : publications st2 !! pub_id instance = Some p').
  { subst st2. cbn [publications set_publications]. rewrite Hidp.
    rewrite lookup_alter_eq, Hrow1. reflexivity. }
  destruct (notification_create_spec clk (author p')
              (author_message clk p' sv) (pub_id p') st2)
    as (na & st3 & Hrun3 & Hna & Hns3 & Hp3 & Hu3 & Hl3).
  rewrite (bind_ok _ _ _ _ _ Hrun3).
  unfold bind at 1, gets at 1.
  destruct (notify_editors_spec clk p' sv user (other_editors user st3) st3)
    as (st4 & created & Hrun4 & Hns4 & Hall4 & Hp4 & Hu4 & Hl4).
  rewrite (bind_ok _ _ _ _ _ Hrun4).
  exists st4, p', na, created.
  split; [reflexivity|].
  split; [now rewrite Hp4, Hp3|].
  split.
  { subst p'. unfold same_columns in *. rewrite Hsame1 at 1. reflexivity. }
  split.
  { intros k Hk. rewrite Hp4, Hp3. subst st2.
    cbn [publications set_publications]. rewrite Hidp.
    rewrite lookup_alter_ne by congruence. now apply Hother1. }
  split; [subst st2; cbn in *; congruence|].
  split; [subst st2; cbn in *; congruence|].
  split.
  { rewrite Hns4, Hns3, <- app_assoc. subst st2. cbn. now rewrite Hn1. }
  split; [now rewrite <- Hidp|].
  assert (E : other_editors user st3 = other_editors user st).
  { unfold other_editors. rewrite Hu3. subst st2. cbn. now rewrite Hu1. }
  rewrite E, Hidp in Hall4. exact Hall4.
Qed.


(** The author's edit: it is not looked at what the status is. *)
Lemma perform_update_author clk user data vd instance st :
  role user ≠ "editor" →
  user_id user = author instance →
  data_rejection_note data ≠ Some JNull →
  ∃ st' p',
    perform_update clk user data vd instance st = (Ok publication_updated, st')
    ∧ publications st' !! pub_id instance = Some p'
    ∧ same_columns (setattrs instance vd) p'
    ∧ (∀ k, k ≠ pub_id instance → publications st' !! k = publications st !! k)
    ∧ frame st st'.
Proof.
  intros Hrole Hauthor Hnote. unfold perform_update.
  rewrite (bind_ok _ _ _ _ _ (rejection_note_of_ok data st Hnote)).
  rewrite (string_eqb_neq _ _ Hrole), andb_false_r, Hauthor, Z.eqb_refl.
  destruct (serializer_update_spec instance vd st)
    as (st1 & inst1 & Hrun1 & Hrow1 & Hsame1 & Hother1 & Hframe).
  rewrite (bind_ok _ _ _ _ _ Hrun1).
  exists st1, inst1. repeat split; try assumption; apply Hframe.
Qed.

(** Outside the editor's status change, [perform_update] creates no
    notification. *)
Lemma perform_update_quiet clk user data vd instance st :
  role user ≠ "editor" ∨ status_value_of data = None
  ∨ status instance = "rejected" →
  notifications (snd (perform_update clk user data vd instance st))
  = notifications st.
Proof.
  intros Hcase. unfold perform_update. unfold bind at 1.
  destruct (rejection_note_of data st) as [[note|e] st0] eqn:Hr;
    pose proof (rejection_note_of_state data st) as Hs0;
    rewrite Hr in Hs0; cbn [snd] in Hs0; subst st0; [|reflexivity].
  destruct (String.eqb (status instance) "rejected"
            && String.eqb (role user) "editor") eqn:Hguard; [reflexivity|].
  assert (Hsel : (if String.eqb (role user) "editor"
                  then status_value_of data else None) = None).
  { destruct (String.eqb (role user) "editor") eqn:Hrole; [|reflexivity].
    destruct Hcase as [H|[H|H]].
    - apply String.eqb_eq in Hrole. contradiction.
    - exact H.
    - rewrite H in Hguard. discriminate. }
  rewrite Hsel.
  destruct (Z.eqb (user_id user) (author instance)); [|reflexivity].
  destruct (serializer_update_spec instance vd st)
    as (st1 & inst1 & Hrun1 & _ & _ & _ & _ & _ & Hn & _).
  rewrite (bind_ok _ _ _ _ _ Hrun1). exact Hn.
Qed.

Lemma get_object_quiet pk user st :
  notifications (snd (get_object pk user st)) = notifications st.
Proof.
  unfold get_object, super_get_object, save_views. run.
  destruct (publications st !! pk) as [p|]; [|reflexivity].
  destruct (has_object_permission user p); [|reflexivity].
  run. destruct (negb _); reflexivity.
Qed.

Lemma patch_quiet user pk action st :
  notifications (snd (patch user pk action st)) = notifications st.
Proof.
  unfold patch, get_object_or_404. run.
  destruct (publications st !! pk) as [p|]; [|reflexivity].
  destruct action as [act|]; [|reflexivity].
  destruct (negb _); [reflexivity|].
  unfold views_get_or_create. run.
  destruct (ledger st !! (pub_id p, user_id user)) as [v|]; run; cbn [fst];
    destruct (String.eqb act "like");
    cbn [default_views user_liked user_disliked];
    try destruct (user_liked v); try destruct (user_disliked v); reflexivity.
Qed.

Lemma perform_create_quiet user vd st :
  notifications (snd (perform_create user vd st)) = notifications st.
Proof.
  unfold perform_create, serializer_create. run.
  set (pk := publication_seq st + 1).
  set (p := mkPublication pk _ _ _ _ _ _ _ _ _ _ _ _).
  set (st1 := mkState _ _ _ _ _ _ _).
  destruct (add_categories_spec pk
              (default [] (vd_categories (with_author vd (user_id user))))
              st1 p)
    as (st' & row' & Hrun & _ & _ & _ & _ & _ & Hn & _).
  { subst st1. cbn. apply lookup_insert_eq. }
  rewrite Hrun. unfold refresh_categories. run. exact Hn.
Qed.

(** Marking as read rewrites rows in place: the identifiers of the table
    stay what they were. *)
Lemma mark_read_quiet user pk vd st :
  map notif_id (notifications (snd (mark_read user pk vd st)))
  = map notif_id (notifications st).
Proof.
  unfold mark_read, notification_update, notification_save. run.
  destruct (find _ _) as [instance|]; [|reflexivity].
  cbn [snd notifications set_notifications]. rewrite map_map.
  apply map_ext_in. intros n _.
  destruct (Z.eqb (notif_id n) (notif_id (notification_assign instance vd)))
    eqn:E; [|reflexivity].
  apply Z.eqb_eq in E. now rewrite E.
Qed.

Lemma mark_all_read_quiet user st :
  map notif_id (notifications (snd (mark_all_read user st)))
  = map notif_id (notifications st).
Proof.
  unfold mark_all_read. run.
  destruct (negb _); [reflexivity|].
  cbn [snd notifications set_notifications]. rewrite map_map.
  apply map_ext. intros n. now destruct (_ && _).
Qed.

(** C2 (the code departs from the claim): the writer, who has the author
    role, retitles their own rejected publication, and the update is
    accepted and written, although the code's comment and error message say
    that rejected publications cannot be changed or updated: the guard
    asks for the editor role, so the author's path is never stopped. *)
Lemma C2_author_edits_rejected :
  status rejected_publication = "rejected"
  ∧ author rejected_publication = user_id writer
  ∧ fst (perform_update noon writer no_data retitle rejected_publication newsroom)
    = Ok publication_updated
  ∧ title <$> publications
        (snd (perform_update noon writer no_data retitle rejected_publication
                newsroom)) !! 2
    = Some "On the moon, revised".
Proof. repeat split; vm_compute; reflexivity. Qed.




(** C4, as stated, fails: the chief editor approves the pending publication
    and sends a note along; the answer carries the note "too short", while
    the note stored on the publication is null. *)
Lemma C4_answer_differs_from_stored_note :
  fst (perform_update noon chief approve_with_note empty_validated_data
         pending_publication newsroom)
    = Ok (status_updated (Some "too short"))
  ∧ rejection_note <$> publications
        (snd (perform_update noon chief approve_with_note empty_validated_data
                pending_publication newsroom)) !! 1
    = Some None.
Proof. split; vm_compute; reflexivity. Qed.

(** C4 (amended): for every successful status change, the note stored on
    the publication is the provided note (stripped; null if blank or
    absent) when the new status is 'rejected' and null for every other
    status, whatever note was supplied or stored before; the note in the
    answer of [perform_update] is always the provided note (stripped; null
    if blank or absent), so the two agree when the new status is 'rejected'
    or the provided note is blank or absent. *)
Theorem C4_stored_and_answered_note clk user data vd instance st sv :
  role user = "editor" →
  status instance ≠ "rejected" →
  status_value_of data = Some sv →
  data_rejection_note data ≠ Some JNull →
  ∃ st' p',
    perform_update clk user data vd instance st
      = (Ok (mkResponse
               (StatusBody "Publication status updated successfully."
                           (provided_note data))
               HTTP_200_OK),
         st')
    ∧ publications st' !! pub_id instance = Some p'
    ∧ rejection_note p'
      = (if String.eqb sv "rejected" then provided_note data else None)
    ∧ (sv = "rejected" ∨ provided_note data = None →
       rejection_note p' = provided_note data).
Proof.
  intros Hrole Hst Hsv Hnote.
  destruct (perform_update_status clk user data vd instance st sv
              Hrole Hst Hsv Hnote)
    as (st' & p' & na & nes & Hrun & Hrow & Hsame & _).
  exists st', p'. split; [exact Hrun|]. split; [exact Hrow|].
  assert (E : rejection_note p' = stored_note sv data).
  { unfold same_columns in Hsame. rewrite Hsame. reflexivity. }
  rewrite E. unfold stored_note. split; [reflexivity|].
  intros [-> | Hnone]; [reflexivity|].
  rewrite Hnone. now destruct (String.eqb sv "rejected").
Qed.

Lemma C4_stored_and_answered_note_witness :
  ∃ st' p',
    perform_update noon chief reject_with_note empty_validated_data
      pending_publication newsroom
      = (Ok (mkResponse
               (StatusBody "Publication status updated successfully."
                           (Some "too short"))
               HTTP_200_OK),
         st')
    ∧ publications st' !! 1 = Some p'
    ∧ rejection_note p' = Some "too short"
    ∧ (("rejected" = "rejected" ∨ Some "too short" = None) →
       rejection_note p' = Some "too short").
Proof.
  apply (C4_stored_and_answered_note noon chief reject_with_note
           empty_validated_data pending_publication newsroom "rejected");
    [reflexivity | discriminate | reflexivity | discriminate].
Defined.

Lemma other_editors_spec user st e :
  In e (other_editors user st)
  ↔ In e (users st) ∧ role e = "editor" ∧ user_id e ≠ user_id user.
Proof.
  unfold other_editors. rewrite filter_In, andb_true_iff, negb_true_iff.
  rewrite String.eqb_eq, Z.eqb_neq. reflexivity.
Qed.

(** C5: a successful status change appends to the notification table one
    notification for the author of the publication, followed by one
    notification per row of the user table with the editor role other
    than the acting editor, each about that publication, and nothing
    else; the other outcomes of [perform_update] and the other handlers
    (retrieval, reaction, creation, marking one or all notifications as
    read) create no notification. *)
Theorem C5_status_change_fan_out :
  (∀ clk user data vd instance st sv,
     role user = "editor" →
     status instance ≠ "rejected" →
     status_value_of data = Some sv →
     data_rejection_note data ≠ Some JNull →
     ∃ st' p' n_author n_editors,
       perform_update clk user data vd instance st
         = (Ok (status_updated (provided_note data)), st')
       ∧ publications st' !! pub_id instance = Some p'
       ∧ author p' = default (author instance) (vd_author vd)
       ∧ notifications st' = (notifications st ++ n_author :: n_editors)%list
       ∧ notif_user n_author = author p'
       ∧ related_publication n_author = pub_id instance
       ∧ Forall2 (fun n e => notif_user n = user_id e
                             ∧ related_publication n = pub_id instance)
                 n_editors (other_editors user st)
       ∧ (∀ e, In e (other_editors user st)
               ↔ In e (users st) ∧ role e = "editor"
                 ∧ user_id e ≠ user_id user))
  ∧ (∀ clk user data vd instance st,
       role user ≠ "editor" ∨ status_value_of data = None
       ∨ status instance = "rejected" →
       creates_no_notification st
         (snd (perform_update clk user data vd instance st)))
  ∧ (∀ pk user st, creates_no_notification st (snd (get_object pk user st)))
  ∧ (∀ user pk action st,
       creates_no_notification st (snd (patch user pk action st)))
  ∧ (∀ user vd st,
       creates_no_notification st (snd (perform_create user vd st)))
  ∧ (∀ user pk vd st,
       creates_no_notification st (snd (mark_read user pk vd st)))
  ∧ (∀ user st, creates_no_notification st (snd (mark_all_read user st))).
Proof.
  unfold creates_no_notification.
  split; [|split; [|split; [|split; [|split; [|split]]]]].
  - intros clk user data vd instance st sv Hrole Hst Hsv Hnote.
    destruct (perform_update_status clk user data vd instance st sv
                Hrole Hst Hsv Hnote)
      as (st' & p' & na & nes & Hrun & Hrow & Hsame & _ & _ & _
          & Hns & Hna & Hnes).
    exists st', p', na, nes.
    split; [exact Hrun|]. split; [exact Hrow|].
    split; [unfold same_columns in Hsame; rewrite Hsame; reflexivity|].
    split; [exact Hns|].
    destruct Hna as (Hu & _ & _ & _ & Hrel).
    split; [exact Hu|]. split; [exact Hrel|]. split.
    + eapply Forall2_impl; [exact Hnes|].
      intros n e (Hu' & _ & _ & _ & Hrel'). now split.
    + intros e. apply other_editors_spec.
  - intros. now rewrite perform_update_quiet.
  - intros. now rewrite get_object_quiet.
  - intros. now rewrite patch_quiet.
  - intros. now rewrite perform_create_quiet.
  - intros. apply mark_read_quiet.
  - intros. apply mark_all_read_quiet.
Qed.

Lemma C5_status_change_fan_out_witness :
  ∃ st' p' n_author n_editors,
    perform_update noon chief reject_with_note empty_validated_data
      pending_publication newsroom
      = (Ok (status_updated (Some "too short")), st')
    ∧ publications st' !! 1 = Some p'
    ∧ author p' = 4
    ∧ notifications st' = n_author :: n_editors
    ∧ notif_user n_author = author p'
    ∧ related_publication n_author = 1
    ∧ Forall2 (fun n e => notif_user n = user_id e ∧ related_publication n = 1)
              n_editors [deputy]
    ∧ (∀ e, In e [deputy]
            ↔ In e (users newsroom) ∧ role e = "editor"
              ∧ user_id e ≠ user_id chief).
Proof.
  apply (proj1 C5_status_change_fan_out noon chief reject_with_note
           empty_validated_data pending_publication newsroom "rejected");
    [reflexivity | discriminate | reflexivity | discriminate].
Defined.

(** ** Listing publications *)

Lemma in_all_publications st p :
  In p (all_publications st) ↔ ∃ pk, publications st !! pk = Some p.
Proof.
  unfold all_publications. rewrite in_map_iff. split.
  - intros ([pk q] & Hq & Hin). cbn in Hq. subst q. exists pk.
    apply list_elem_of_In in Hin. now apply elem_of_map_to_list in Hin.
  - intros (pk & Hpk). exists (pk, p). split; [reflexivity|].
    apply list_elem_of_In. now apply elem_of_map_to_list.
Qed.

Lemma keyword_filter_incl icontains keywords queryset p :
  In p (keyword_filter icontains keywords queryset) → In p queryset.
Proof.
  unfold keyword_filter. destruct keywords as [k|]; [|easy].
  destruct (PyStr.truthy k); [|easy].
  rewrite filter_In. now intros [H _].
Qed.

Lemma own_or_approved_spec user p :
  own_or_approved user p = true
  ↔ author p = user_id user ∨ status p = "approved".
Proof.
  unfold own_or_approved. now rewrite orb_true_iff, Z.eqb_eq, String.eqb_eq.
Qed.

(** C8: a caller without the editor role is listed exactly the
    publications, among those the keyword search keeps, that are their own
    or approved: without a keyword search, their own publications and all
    approved ones; a pending or rejected publication of another user is
    never listed.  A caller with the editor role is listed everything the
    keyword search keeps, whatever the status. *)
Theorem C8_listing_visibility (icontains : string → string → bool)
    (user : User) (keywords : option string) (st : State) :
  (role user ≠ "editor" →
     get_queryset icontains user keywords st
       = List.filter (own_or_approved user)
           (keyword_filter icontains keywords (all_publications st))
     ∧ (∀ p, In p (get_queryset icontains user None st)
             ↔ (∃ pk, publications st !! pk = Some p)
               ∧ (author p = user_id user ∨ status p = "approved"))
     ∧ (∀ p, In p (get_queryset icontains user keywords st) →
             author p ≠ user_id user →
             status p ≠ "pending" ∧ status p ≠ "rejected"))
  ∧ (role user = "editor" →
       get_queryset icontains user keywords st
         = keyword_filter icontains keywords (all_publications st)
       ∧ (∀ p, In p (get_queryset icontains user None st)
               ↔ ∃ pk, publications st !! pk = Some p)).
Proof.
  split; intros Hrole.
  - assert (E : ∀ kw, get_queryset icontains user kw st
                 = List.filter (own_or_approved user)
                     (keyword_filter icontains kw (all_publications st))).
    { intros kw. unfold get_queryset.
      rewrite (string_eqb_neq _ _ Hrole). reflexivity. }
    split; [apply E|]. split.
    + intros p. rewrite E. cbn [keyword_filter].
      rewrite filter_In, in_all_publications, own_or_approved_spec.
      reflexivity.
    + intros p. rewrite E, filter_In, own_or_approved_spec.
      intros [_ [Hown|Happ]] Hother; [contradiction|].
      rewrite Happ. split; discriminate.
  - assert (E : ∀ kw, get_queryset icontains user kw st
                 = keyword_filter icontains kw (all_publications st)).
    { intros kw. unfold get_queryset. rewrite Hrole. reflexivity. }
    split; [apply E|].
    intros p. rewrite E. cbn [keyword_filter]. apply in_all_publications.
Qed.

Lemma C8_listing_visibility_witness :
  (∀ p, In p (get_queryset ascii_icontains reader None newsroom) →
        author p ≠ user_id reader →
        status p ≠ "pending" ∧ status p ≠ "rejected")
  ∧ get_queryset ascii_icontains chief (Some "MOON") newsroom
    = keyword_filter ascii_icontains (Some "MOON") (all_publications newsroom).
Proof.
  split.
  - apply (proj1 (C8_listing_visibility ascii_icontains reader None newsroom)).
    discriminate.
  - apply (proj2 (C8_listing_visibility ascii_icontains chief (Some "MOON")
                    newsroom)).
    reflexivity.
Defined.

(** ** The notification outbox *)

(** The rows of the unread queryset of an authenticated caller: a
    rearrangement of exactly the caller's notifications that are not read,
    every row created no earlier than the rows after it. *)
Lemma unread_queryset_rows (u : User) (st : State) :
  StronglySorted (fun a b => created_at b <= created_at a)
                 (unread_queryset (AuthUser u) st)
  ∧ Permutation
      (unread_queryset (AuthUser u) st)
      (List.filter
         (fun n => Z.eqb (notif_user n) (user_id u) && negb (is_read n))
         (notifications st))
  ∧ ∀ n, In n (unread_queryset (AuthUser u) st)
         ↔ In n (notifications st)
           ∧ notif_user n = user_id u ∧ is_read n = false.
Proof.
  cbn [unread_queryset].
  split; [apply (StronglySorted_merge_sort newer_first)|].
  split; [apply merge_sort_Permutation|].
  intros n. rewrite <- !list_elem_of_In.
  rewrite (merge_sort_Permutation newer_first).
  rewrite !list_elem_of_In, filter_In, andb_true_iff, negb_true_iff, Z.eqb_eq.
  reflexivity.
Qed.

(** C9, as stated, fails: the anonymous user is not answered an empty
    sequence; the permission of the view refuses the request with an
    error, [NotAuthenticated] or [PermissionDenied], before the queryset is
    built. *)
Lemma C9_anonymous_is_refused :
  notification_unread_view true AnonymousUser inbox
  = (Raise NotAuthenticated, inbox)
  ∧ notification_unread_view false AnonymousUser inbox
    = (Raise (PermissionDenied
                "You do not have permission to perform this action."),
       inbox)
  ∧ ∀ authenticators,
      fst (notification_unread_view authenticators AnonymousUser inbox)
      ≠ Ok [].
Proof.
  split; [reflexivity|]. split; [reflexivity|].
  intros [|]; discriminate.
Qed.

(** C9 (amended): for an authenticated caller the unread view answers a
    rearrangement of exactly the caller's notifications that are not read,
    every row created no earlier than the rows after it, and writes
    nothing; for the anonymous user the view answers no sequence: the
    request is refused with [NotAuthenticated] or [PermissionDenied] by the
    permission of the view, and the branch of [get_queryset] that would
    give the empty sequence is not reached. *)
Theorem C9_unread_view (authenticators : bool) (st : State) :
  notification_unread_view authenticators AnonymousUser st
  = (Raise (if authenticators then NotAuthenticated
            else PermissionDenied
                   "You do not have permission to perform this action."),
     st)
  ∧ ∀ u,
      notification_unread_view authenticators (AuthUser u) st
      = (Ok (unread_queryset (AuthUser u) st), st)
      ∧ StronglySorted (fun a b => created_at b <= created_at a)
                       (unread_queryset (AuthUser u) st)
      ∧ Permutation
          (unread_queryset (AuthUser u) st)
          (List.filter
             (fun n => Z.eqb (notif_user n) (user_id u) && negb (is_read n))
             (notifications st))
      ∧ ∀ n, In n (unread_queryset (AuthUser u) st)
             ↔ In n (notifications st)
               ∧ notif_user n = user_id u ∧ is_read n = false.
Proof.
  split.
  - unfold notification_unread_view, check_permissions. run.
    cbn [is_authenticated]. now destruct authenticators.
  - intros u. split; [reflexivity|]. apply unread_queryset_rows.
Qed.

Lemma notification_assign_frame instance vd :
  notif_id (notification_assign instance vd) = notif_id instance
  ∧ notif_user (notification_assign instance vd) = notif_user instance
  ∧ message (notification_assign instance vd) = message instance
  ∧ created_at (notification_assign instance vd) = created_at instance
  ∧ related_publication (notification_assign instance vd)
    = related_publication instance.
Proof. repeat split. Qed.

(** In a table whose identifiers are distinct, a row is known by its
    identifier. *)
Lemma row_by_id (l : list Notification) a b :
  NoDup (map notif_id l) → In a l → In b l → notif_id a = notif_id b → a = b.
Proof.
  induction l as [|x l IH]; intros Hnd Ha Hb Hid; [contradiction|].
  cbn in Hnd. apply NoDup_cons in Hnd. destruct Hnd as [Hx Hnd].
  destruct Ha as [->|Ha], Hb as [->|Hb].
  - reflexivity.
  - exfalso. apply Hx. rewrite Hid. apply list_elem_of_In.
    now apply in_map.
  - exfalso. apply Hx. rewrite <- Hid. apply list_elem_of_In.
    now apply in_map.
  - now apply IH.
Qed.

Lemma Forall2_map_self {A} (P : A → A → Prop) (g : A → A) (l : list A) :
  (∀ x, In x l → P x (g x)) → Forall2 P l (map g l).
Proof.
  induction l as [|x l IH]; intros H; cbn; constructor.
  - apply H. now left.
  - apply IH. intros y Hy. apply H. now right.
Qed.

Lemma same_but_is_read_refl n : same_but_is_read n n.
Proof. repeat split. Qed.

(** C10: [NotificationSerializer.update] writes [is_read] and nothing
    else: the instance keeps its message, related publication, recipient
    and creation time even when the validated data hold a message; and
    after the mark-read request every row of the notification table is
    what it was up to [is_read], every row other than the targeted one is
    untouched, and so are the other tables. *)
Theorem C10_mark_read_frame :
  (∀ instance vd,
     same_but_is_read instance (notification_assign instance vd)
     ∧ is_read (notification_assign instance vd)
       = default (is_read instance) (nd_is_read vd))
  ∧ (∀ user pk vd st,
       NoDup (map notif_id (notifications st)) →
       Forall2 (fun n n' => same_but_is_read n n'
                            ∧ (notif_id n ≠ pk → n' = n))
               (notifications st)
               (notifications (snd (mark_read user pk vd st)))
       ∧ publications (snd (mark_read user pk vd st)) = publications st
       ∧ users (snd (mark_read user pk vd st)) = users st
       ∧ ledger (snd (mark_read user pk vd st)) = ledger st).
Proof.
  split.
  - intros instance vd. split; [apply notification_assign_frame|reflexivity].
  - intros user pk vd st Hnd.
    unfold mark_read, notification_update, notification_save. run.
    destruct (find _ _) as [instance|] eqn:Hfind.
    + apply find_some in Hfind. destruct Hfind as [Hin Hpk].
      unfold notifications_of in Hin. apply filter_In in Hin.
      destruct Hin as [Hin _]. apply Z.eqb_eq in Hpk.
      cbn [snd notifications set_notifications publications users ledger].
      split; [|repeat split].
      apply Forall2_map_self. intros n Hn.
      change (notif_id (notification_assign instance vd))
        with (notif_id instance).
      destruct (Z.eqb (notif_id n) (notif_id instance)) eqn:E.
      * apply Z.eqb_eq in E.
        assert (n = instance) by (eapply row_by_id; eauto). subst n.
        split; [apply notification_assign_frame|].
        intros Hne. congruence.
      * split; [apply same_but_is_read_refl|reflexivity].
    + cbn [snd]. split; [|repeat split].
      rewrite <- (map_id (notifications st)) at 2.
      apply Forall2_map_self. intros n _.
      split; [apply same_but_is_read_refl|reflexivity].
Qed.

Lemma C10_mark_read_frame_witness :
  Forall2 (fun n n' => same_but_is_read n n' ∧ (notif_id n ≠ 1 → n' = n))
          (notifications inbox)
          (notifications (snd (mark_read writer 1 read_and_rewrite inbox)))
  ∧ publications (snd (mark_read writer 1 read_and_rewrite inbox))
    = publications inbox
  ∧ users (snd (mark_read writer 1 read_and_rewrite inbox)) = users inbox
  ∧ ledger (snd (mark_read writer 1 read_and_rewrite inbox)) = ledger inbox.
Proof.
  apply (proj2 C10_mark_read_frame writer 1 read_and_rewrite inbox).
  apply (bool_decide_unpack _). vm_compute. exact I.
Defined.

(** The request of the witness, evaluated: the flag is raised, the forged
    message is not stored. *)
Example mark_read_ignores_message :
  notifications (snd (mark_read writer 1 read_and_rewrite inbox))
  = [mkNotification 1 4 "Your publication was rejected." true 1200 1;
     mkNotification 2 3 "Publication status updated." false 1200 1].
Proof. reflexivity. Qed.

(** The unread listing of a reader with three notifications, one of them
    read: the later of the two unread ones comes first. *)
Example unread_newest_first :
  unread_queryset (AuthUser reader)
    (set_notifications
       (fun _ => [mkNotification 1 7 "first" false 10 1;
                  mkNotification 2 7 "second" true 20 1;
                  mkNotification 3 4 "other" false 25 1;
                  mkNotification 4 7 "third" false 30 1])
       newsroom)
  = [mkNotification 4 7 "third" false 30 1;
     mkNotification 1 7 "first" false 10 1].
Proof. vm_compute. reflexivity. Qed.

(** ** Retrieval: refusals, effect on the database, readers who reacted *)

(** A retrieval that is refused, for a missing publication with [Http404] or
    for a caller without object permission with [PermissionDenied], is
    refused before the counter is touched: the database is what it was. *)
Theorem get_object_refused pk user st :
  (publications st !! pk = None →
     get_object pk user st = (Raise Http404, st))
  ∧ (∀ p, publications st !! pk = Some p →
          has_object_permission user p = false →
          ∃ detail, get_object pk user st = (Raise (PermissionDenied detail), st)).
Proof.
  split.
  - intros H. unfold get_object, super_get_object. run. now rewrite H.
  - intros p Hp Hperm. unfold get_object, super_get_object. run.
    rewrite Hp, Hperm. eexists. reflexivity.
Qed.

Lemma get_object_refused_witness :
  get_object 9 reader newsroom = (Raise Http404, newsroom)
  ∧ ∃ detail,
      get_object 1 reader newsroom = (Raise (PermissionDenied detail), newsroom).
Proof.
  split.
  - apply (proj1 (get_object_refused 9 reader newsroom)). reflexivity.
  - apply (proj2 (get_object_refused 1 reader newsroom) pending_publication);
      reflexivity.
Defined.

(** In a keyed publication table, a retrieval writes at most the views
    column of the retrieved row, and raises it by zero or one; the other
    rows, the ledger, the users and the notifications are what they were,
    and the table stays keyed. *)
Theorem get_object_effect pk user st :
  keyed st →
  keyed (snd (get_object pk user st))
  ∧ ledger (snd (get_object pk user st)) = ledger st
  ∧ users (snd (get_object pk user st)) = users st
  ∧ notifications (snd (get_object pk user st)) = notifications st
  ∧ (∀ k, k ≠ pk →
       publications (snd (get_object pk user st)) !! k = publications st !! k)
  ∧ (∀ p, publications st !! pk = Some p →
       ∃ p', publications (snd (get_object pk user st)) !! pk = Some p'
             ∧ p' = with_views p (views p')
             ∧ (views p' = views p ∨ views p' = views p + 1)).
Proof.
  intros Hkeyed.
  unfold get_object, super_get_object, save_views, views_exists. run.
  destruct (publications st !! pk) as [p|] eqn:Hp.
  2:{ cbn [snd]. repeat split; try assumption. intros p Hp'. discriminate. }
  pose proof (Hkeyed pk p Hp) as Hk.
  destruct (has_object_permission user p).
  2:{ cbn [snd]. repeat split; try assumption.
      intros q Hq. inversion Hq; subst q. exists p.
      split; [assumption|]. split; [now destruct p|now left]. }
  run. rewrite Hk.
  destruct (ledger st !! (pk, user_id user)) as [v|]; cbn [negb snd].
  { repeat split; try assumption.
    intros q Hq. inversion Hq; subst q. exists p.
    split; [assumption|]. split; [now destruct p|now left]. }
  cbn [with_views pub_id views]. rewrite Hk.
  cbn [publications set_publications ledger users notifications].
  split.
  { intros k q. cbn [publications set_publications].
    destruct (decide (k = pk)) as [->|Hne].
    - rewrite lookup_alter_eq, Hp. cbn. intros Hq. inversion Hq. exact Hk.
    - rewrite lookup_alter_ne by congruence. apply Hkeyed. }
  repeat split.
  - intros k Hne. now rewrite lookup_alter_ne by congruence.
  - intros q Hq. inversion Hq; subst q.
    exists (with_views p (views p + 1)).
    rewrite lookup_alter_eq, Hp. split; [reflexivity|].
    split; [reflexivity|]. right. reflexivity.
Qed.

Lemma keyed_newsroom : keyed newsroom.
Proof.
  intros pk p H.
  destruct (decide (pk = 1)) as [->|H1];
    [vm_compute in H; now inversion H|].
  destruct (decide (pk = 2)) as [->|H2];
    [vm_compute in H; now inversion H|].
  unfold newsroom in H. cbn [publications] in H.
  rewrite lookup_insert_ne, lookup_singleton_ne in H by congruence.
  discriminate.
Qed.

Lemma get_object_effect_witness :
  keyed (snd (get_object 1 writer newsroom))
  ∧ ledger (snd (get_object 1 writer newsroom)) = ledger newsroom
  ∧ users (snd (get_object 1 writer newsroom)) = users newsroom
  ∧ notifications (snd (get_object 1 writer newsroom)) = notifications newsroom
  ∧ (∀ k, k ≠ 1 →
       publications (snd (get_object 1 writer newsroom)) !! k
       = publications newsroom !! k)
  ∧ (∀ p, publications newsroom !! 1 = Some p →
       ∃ p', publications (snd (get_object 1 writer newsroom)) !! 1 = Some p'
             ∧ p' = with_views p (views p')
             ∧ (views p' = views p ∨ views p' = views p + 1)).
Proof. exact (get_object_effect 1 writer newsroom keyed_newsroom). Defined.

Lemma patch_row_exists user pk p act st :
  publications st !! pk = Some p → pub_id p = pk →
  act = "like" ∨ act = "dislike" →
  is_Some (ledger (snd (patch user pk (Some act) st)) !! (pk, user_id user)).
Proof.
  intros Hp Hk Hact. unfold patch. run.
  rewrite (get_object_or_404_found st pk p Hp).
  unfold views_get_or_create. run. rewrite Hk.
  destruct Hact as [-> | ->]; cbn [negb String.eqb Ascii.eqb Bool.eqb orb];
    destruct (ledger st !! (pk, user_id user)) as [v|] eqn:Hl; run; cbn [fst];
    cbn [default_views user_liked user_disliked];
    try destruct (user_liked v); try destruct (user_disliked v);
    cbn [snd]; rewrite ?patch_finish_state, ?Hk; cbn [ledger set_ledger];
    rewrite ?lookup_insert_eq, ?Hl; eauto.
Qed.

Lemma retrieve_times_seen n : ∀ st pk user p v,
  publications st !! pk = Some p → pub_id p = pk →
  has_object_permission user p = true →
  ledger st !! (pk, user_id user) = Some v →
  retrieve_times n pk user st = st.
Proof.
  induction n as [|n IH]; intros st pk user p v Hp Hk Hperm Hl; [reflexivity|].
  cbn [retrieve_times].
  rewrite (get_object_seen st pk user p v Hp Hk Hperm Hl). cbn [snd].
  now apply (IH st pk user p v).
Qed.

(** Once a user has sent a like or a dislike for a publication, accepted or
    refused as a duplicate, any number of retrievals of that publication by
    that user leaves the whole database, the views counter included, as it
    is. *)
Theorem retrievals_after_reaction_do_not_count n user pk p act st :
  publications st !! pk = Some p → pub_id p = pk →
  has_object_permission user p = true →
  act = "like" ∨ act = "dislike" →
  retrieve_times n pk user (snd (patch user pk (Some act) st))
  = snd (patch user pk (Some act) st).
Proof.
  intros Hp Hk Hperm Hact.
  destruct (patch_row_exists user pk p act st Hp Hk Hact) as [v Hv].
  apply (retrieve_times_seen n _ pk user p v); try assumption.
  now rewrite patch_publications.
Qed.

Lemma retrievals_after_reaction_do_not_count_witness :
  retrieve_times 3 1 reader (snd (patch reader 1 (Some "like") reading_room))
  = snd (patch reader 1 (Some "like") reading_room).
Proof.
  apply (retrievals_after_reaction_do_not_count 3 reader 1 approved_publication
           "like" reading_room);
    [reflexivity | reflexivity | reflexivity | left; reflexivity].
Defined.

(** ** Listing: agreement with the object permission, keyword search *)

Lemma get_queryset_permission icontains user keywords st p :
  In p (get_queryset icontains user keywords st)
  ↔ In p (keyword_filter icontains keywords (all_publications st))
    ∧ has_object_permission user p = true.
Proof.
  unfold get_queryset, has_object_permission.
  destruct (String.eqb (role user) "editor").
  - tauto.
  - rewrite filter_In. cbn [q_or q_matches].
    destruct (Z.eqb (author p) (user_id user)); cbn [orb]; tauto.
Qed.

(** The listing and the detail view agree: a publication is listed for a
    caller exactly when the keyword search keeps it and the object
    permission of the detail view lets that caller retrieve it; without a
    keyword search, exactly the stored publications the caller may
    retrieve are listed. *)
Theorem listing_agrees_with_object_permission
    (icontains : string → string → bool) (user : User) (st : State) :
  (∀ keywords p,
     In p (get_queryset icontains user keywords st)
     ↔ In p (keyword_filter icontains keywords (all_publications st))
       ∧ has_object_permission user p = true)
  ∧ (∀ p,
       In p (get_queryset icontains user None st)
       ↔ (∃ pk, publications st !! pk = Some p)
         ∧ has_object_permission user p = true).
Proof.
  split.
  - intros keywords p. apply get_queryset_permission.
  - intros p. rewrite get_queryset_permission. cbn [keyword_filter].
    now rewrite in_all_publications.
Qed.

(** Whatever any caller is listed, a caller with the editor role is listed
    too, under the same keyword search. *)
Theorem editor_listing_includes_every_listing
    (icontains : string → string → bool) (user e : User)
    (keywords : option string) (st : State) (p : Publication) :
  role e = "editor" →
  In p (get_queryset icontains user keywords st) →
  In p (get_queryset icontains e keywords st).
Proof.
  intros He. rewrite !get_queryset_permission.
  intros [Hin _]. split; [exact Hin|].
  unfold has_object_permission. now rewrite He.
Qed.

Lemma editor_listing_includes_every_listing_witness :
  In approved_publication
     (get_queryset ascii_icontains chief (Some "tides") reading_room).
Proof.
  apply (editor_listing_includes_every_listing ascii_icontains reader chief
           (Some "tides") reading_room approved_publication).
  - reflexivity.
  - vm_compute. left. reflexivity.
Defined.

Lemma keyword_queries_fold icontains p (l : list string) : ∀ acc,
  acc ≠ QEmpty →
  q_matches icontains
    (fold_left
       (fun keyword_queries keyword =>
          q_or keyword_queries
               (q_or (q_or (QIcontains FKeywords keyword)
                           (QIcontains FTitle keyword))
                     (QIcontains FAbstract keyword)))
       l acc) p
  = q_matches icontains acc p || existsb (keyword_hits icontains p) l.
Proof.
  induction l as [|k l IH]; intros acc Hacc; cbn [fold_left existsb].
  - now rewrite orb_false_r.
  - rewrite IH.
    + destruct acc; try contradiction; cbn [q_or q_matches field_of];
        unfold keyword_hits; rewrite <- !orb_assoc; reflexivity.
    + destruct acc; try contradiction; discriminate.
Qed.

Lemma keyword_queries_matches icontains p (l : list string) :
  q_matches icontains (keyword_queries_of l) p
  = match l with
    | [] => true
    | _ => existsb (keyword_hits icontains p) l
    end.
Proof.
  destruct l as [|k l]; [reflexivity|].
  unfold keyword_queries_of. cbn [fold_left q_or].
  rewrite keyword_queries_fold by discriminate.
  reflexivity.
Qed.

(** The keyword search keeps a publication when one of the keywords of the
    list is found in one of its keywords, title or abstract: any keyword,
    any of the three fields.  A parameter from which no keyword is left
    (empty, or only commas and blanks) filters nothing. *)
Theorem keyword_search_is_any_keyword_any_field
    (icontains : string → string → bool) (query : string)
    (queryset : list Publication) (p : Publication) :
  In p (keyword_filter icontains (Some query) queryset)
  ↔ In p queryset
    ∧ (keyword_list_of query = []
       ∨ ∃ keyword,
           In keyword (keyword_list_of query)
           ∧ (icontains (keywords p) keyword = true
              ∨ icontains (title p) keyword = true
              ∨ icontains (abstract p) keyword = true)).
Proof.
  unfold keyword_filter.
  destruct (PyStr.truthy query) eqn:Ht.
  - rewrite filter_In, keyword_queries_matches.
    destruct (keyword_list_of query) as [|k l] eqn:El.
    + intuition.
    + rewrite existsb_exists. unfold keyword_hits.
      setoid_rewrite orb_true_iff. setoid_rewrite orb_true_iff.
      split.
      * intros [Hin (x & Hx & Hhit)]. split; [exact Hin|]. right.
        exists x. tauto.
      * intros [Hin [Hnil|(x & Hx & Hhit)]]; [discriminate|].
        split; [exact Hin|]. exists x. tauto.
  - destruct query; [|discriminate]. cbn. intuition.
Qed.

(** ** Updates: refusals and what a status change writes *)



(** A payload whose [rejection_note] is [null] makes [perform_update] fail
    with [AttributeError] for every caller and every publication, before
    any check and before anything is written. *)
Theorem perform_update_null_note clk user data vd instance st :
  data_rejection_note data = Some JNull →
  perform_update clk user data vd instance st = (Raise AttributeError, st).
Proof.
  intros H. unfold perform_update, rejection_note_of. rewrite H. reflexivity.
Qed.

Lemma perform_update_null_note_witness :
  perform_update noon writer (mkRequestData None (Some JNull)) retitle
    pending_publication newsroom
  = (Raise AttributeError, newsroom).
Proof.
  apply (perform_update_null_note noon writer (mkRequestData None (Some JNull))
           retitle pending_publication newsroom).
  reflexivity.
Defined.

(** The editor's status change is not a status-only write: every content
    field held in the validated data is stored along with it.  The status
    stored is the one of the request even when the validated data hold
    another, the note stored does not depend on the validated data, and the
    identifier and the views counter of the instance are kept; the
    ledger and the other publications are what they were. *)
Theorem status_change_writes_validated_fields clk user data vd instance st sv :
  role user = "editor" →
  status instance ≠ "rejected" →
  status_value_of data = Some sv →
  data_rejection_note data ≠ Some JNull →
  ∃ st' p',
    perform_update clk user data vd instance st
      = (Ok (status_updated (provided_note data)), st')
    ∧ publications st' !! pub_id instance = Some p'
    ∧ title p' = default (title instance) (vd_title vd)
    ∧ abstract p' = default (abstract instance) (vd_abstract vd)
    ∧ content p' = default (content instance) (vd_content vd)
    ∧ keywords p' = default (keywords instance) (vd_keywords vd)
    ∧ file p' = default (file instance) (vd_file vd)
    ∧ video_file p' = default (video_file instance) (vd_video_file vd)
    ∧ status p' = sv
    ∧ rejection_note p' = stored_note sv data
    ∧ pub_id p' = pub_id instance
    ∧ views p' = views instance
    ∧ ledger st' = ledger st
    ∧ (∀ k, k ≠ pub_id instance →
         publications st' !! k = publications st !! k).
Proof.
  intros Hrole Hst Hsv Hnote.
  destruct (perform_update_status clk user data vd instance st sv
              Hrole Hst Hsv Hnote)
    as (st' & p' & na & nes & Hrun & Hrow & Hsame & Hother & _ & Hl & _).
  exists st', p'. split; [exact Hrun|]. split; [exact Hrow|].
  unfold same_columns in Hsame. rewrite Hsame.
  repeat split; try reflexivity; assumption.
Qed.

Lemma status_change_writes_validated_fields_witness :
  ∃ st' p',
    perform_update noon chief approve_with_note retitle pending_publication
      newsroom
      = (Ok (status_updated (Some "too short")), st')
    ∧ publications st' !! 1 = Some p'
    ∧ title p' = "On the moon, revised"
    ∧ abstract p' = "abstract"
    ∧ content p' = "content"
    ∧ keywords p' = "tides,moon"
    ∧ file p' = None
    ∧ video_file p' = None
    ∧ status p' = "approved"
    ∧ rejection_note p' = None
    ∧ pub_id p' = 1
    ∧ views p' = 0
    ∧ ledger st' = ledger newsroom
    ∧ (∀ k, k ≠ 1 → publications st' !! k = publications newsroom !! k).
Proof.
  apply (status_change_writes_validated_fields noon chief approve_with_note
           retitle pending_publication newsroom "approved");
    [reflexivity | discriminate | reflexivity | discriminate].
Defined.

(** The status is a writable field of the serializer, and the author's
    update stores whatever the validated data hold: an author without the
    editor role who submits a status has it stored on their own
    publication, 'approved' included, the recorded editor staying as it
    was, and no notification is created. *)
Theorem author_update_stores_submitted_status clk user data vd instance st sv :
  role user ≠ "editor" →
  user_id user = author instance →
  data_rejection_note data ≠ Some JNull →
  vd_status vd = Some sv →
  vd_editor vd = None →
  ∃ st' p',
    perform_update clk user data vd instance st = (Ok publication_updated, st')
    ∧ publications st' !! pub_id instance = Some p'
    ∧ status p' = sv
    ∧ editor p' = editor instance
    ∧ notifications st' = notifications st.
Proof.
  intros Hrole Hauthor Hnote Hsv Hed.
  destruct (perform_update_author clk user data vd instance st
              Hrole Hauthor Hnote)
    as (st' & p' & Hrun & Hrow & Hsame & _ & _ & _ & Hn & _).
  exists st', p'. split; [exact Hrun|]. split; [exact Hrow|].
  unfold same_columns in Hsame. rewrite Hsame.
  cbn [status editor with_categories setattrs]. rewrite Hsv, Hed.
  repeat split. exact Hn.
Qed.

Lemma author_update_stores_submitted_status_witness :
  ∃ st' p',
    perform_update noon writer no_data
      (mkValidatedData None None None None None None None (Some "approved")
                       None None None)
      pending_publication newsroom
    = (Ok publication_updated, st')
    ∧ publications st' !! 1 = Some p'
    ∧ status p' = "approved"
    ∧ editor p' = None
    ∧ notifications st' = notifications newsroom.
Proof.
  apply (author_update_stores_submitted_status noon writer no_data
           (mkValidatedData None None None None None None None
                            (Some "approved") None None None)
           pending_publication newsroom "approved");
    [discriminate | reflexivity | discriminate | reflexivity | reflexivity].
Defined.

(** ** Categories of a publication, creation *)

Lemma mem_string_In x l : mem_string x l = true ↔ In x l.
Proof.
  unfold mem_string. rewrite existsb_exists. split.
  - intros (y & Hy & E). apply String.eqb_eq in E. now subst.
  - intros H. exists x. split; [exact H|apply String.eqb_refl].
Qed.

Lemma add_if_new_In l x c : In c (add_if_new l x) ↔ In c l ∨ c = x.
Proof.
  unfold add_if_new. destruct (mem_string x l) eqn:E.
  - apply mem_string_In in E. split; [tauto|]. intros [H| ->]; assumption.
  - rewrite in_app_iff. cbn. intuition.
Qed.

Lemma add_if_new_NoDup l x : NoDup l → NoDup (add_if_new l x).
Proof.
  intros Hnd. unfold add_if_new. destruct (mem_string x l) eqn:E; [exact Hnd|].
  apply NoDup_app. split; [exact Hnd|]. split.
  - intros y Hy Hx. apply list_elem_of_In in Hy, Hx. cbn in Hx.
    destruct Hx as [<-|[]]. apply mem_string_In in Hy. congruence.
  - apply NoDup_singleton.
Qed.

Lemma fold_add_if_new_In cats : ∀ l c,
  In c (fold_left add_if_new cats l) ↔ In c l ∨ In c cats.
Proof.
  induction cats as [|x cats IH]; intros l c; cbn [fold_left].
  - cbn. tauto.
  - rewrite IH, add_if_new_In. cbn. intuition.
Qed.

Lemma fold_add_if_new_NoDup cats : ∀ l,
  NoDup l → NoDup (fold_left add_if_new cats l).
Proof.
  induction cats as [|x cats IH]; intros l Hl; cbn [fold_left]; [exact Hl|].
  apply IH. now apply add_if_new_NoDup.
Qed.

Lemma add_categories_fold pk cats : ∀ st row,
  publications st !! pk = Some row →
  ∃ st',
    add_categories pk cats st = (Ok tt, st')
    ∧ publications st' !! pk
      = Some (with_categories row
                (fold_left add_if_new cats (pub_categories row)))
    ∧ categories st' = fold_left add_if_new cats (categories st)
    ∧ publication_seq st' = publication_seq st.
Proof.
  induction cats as [|cat rest IH]; intros st row Hrow.
  - exists st. cbn. run. split; [reflexivity|]. split; [|split; reflexivity].
    rewrite Hrow. now destruct row.
  - cbn [add_categories]. unfold category_get_or_create, categories_add. run.
    set (st1 := set_publications _ (set_categories _ st)).
    destruct (IH st1 (with_categories row (add_if_new (pub_categories row) cat)))
      as (st' & Hrun & Hrow' & Hcats & Hseq).
    { subst st1. cbn [publications set_publications set_categories].
      rewrite lookup_alter_eq, Hrow. cbn. f_equal. unfold add_if_new.
      destruct (mem_string cat (pub_categories row)); [now destruct row|reflexivity]. }
    exists st'. rewrite Hrun. split; [reflexivity|]. split; [|split].
    + rewrite Hrow'. reflexivity.
    + rewrite Hcats. reflexivity.
    + rewrite Hseq. reflexivity.
Qed.

(** An update that carries categories replaces the categories of the
    publication by the submitted names, each of them once; every submitted
    name is in the category table afterwards, no name leaves the table,
    and a table without repeated names stays so. *)
Theorem update_replaces_categories instance vd cats st :
  vd_categories vd = Some cats →
  ∃ st' p',
    serializer_update instance vd st = (Ok p', st')
    ∧ publications st' !! pub_id instance = Some p'
    ∧ NoDup (pub_categories p')
    ∧ (∀ c, In c (pub_categories p') ↔ In c cats)
    ∧ (∀ c, In c (categories st') ↔ In c (categories st) ∨ In c cats)
    ∧ (NoDup (categories st) → NoDup (categories st')).
Proof.
  intros Hcats. unfold serializer_update, save, categories_clear. rewrite Hcats.
  run.
  set (inst1 := setattrs instance vd).
  change (pub_id inst1) with (pub_id instance).
  set (st2 := set_publications _ (set_publications _ st)).
  destruct (add_categories_fold (pub_id instance) cats st2
              (with_categories inst1 []))
    as (st' & Hrun & Hrow & Hc & _).
  { subst st2. cbn [publications set_publications].
    rewrite lookup_alter_eq, lookup_insert_eq. reflexivity. }
  rewrite Hrun. unfold refresh_categories. run.
  change (pub_id inst1) with (pub_id instance). rewrite Hrow.
  cbn [pub_categories with_categories] in *.
  eexists _, _. split; [reflexivity|].
  split; [exact Hrow|]. cbn [pub_categories with_categories].
  split; [apply fold_add_if_new_NoDup; constructor|].
  split; [intros c; rewrite fold_add_if_new_In; cbn; tauto|].
  rewrite Hc. subst st2. cbn [categories set_publications].
  split; [intros c; apply fold_add_if_new_In|apply fold_add_if_new_NoDup].
Qed.

Lemma update_replaces_categories_witness :
  ∃ st' p',
    serializer_update pending_publication
      (mkValidatedData None None None None None (Some ["physics"; "physics"])
                       None None None None None)
      newsroom
    = (Ok p', st')
    ∧ publications st' !! 1 = Some p'
    ∧ NoDup (pub_categories p')
    ∧ (∀ c, In c (pub_categories p') ↔ In c ["physics"; "physics"])
    ∧ (∀ c, In c (categories st')
            ↔ In c (categories newsroom) ∨ In c ["physics"; "physics"])
    ∧ (NoDup (categories newsroom) → NoDup (categories st')).
Proof.
  apply (update_replaces_categories pending_publication
           (mkValidatedData None None None None None
                            (Some ["physics"; "physics"]) None None None None
                            None)
           ["physics"; "physics"] newsroom).
  reflexivity.
Defined.

(** Creation always succeeds: the new publication is stored under the next
    identifier of the sequence, its author is the caller whatever the
    validated data hold, its categories are the submitted names, each
    once; the rows under other identifiers, the users, the ledger and the
    notifications are what they were, and a keyed table stays keyed. *)
Theorem creation_stores_callers_publication user vd st :
  ∃ st' p,
    perform_create user vd st = (Ok p, st')
    ∧ pub_id p = publication_seq st + 1
    ∧ publication_seq st' = pub_id p
    ∧ publications st' !! pub_id p = Some p
    ∧ author p = user_id user
    ∧ NoDup (pub_categories p)
    ∧ (∀ c, In c (pub_categories p) ↔ In c (default [] (vd_categories vd)))
    ∧ (∀ k, k ≠ pub_id p → publications st' !! k = publications st !! k)
    ∧ frame st st'
    ∧ (keyed st → keyed st').
Proof.
  unfold perform_create, serializer_create. run.
  set (pk := publication_seq st + 1).
  set (p0 := mkPublication pk _ _ _ _ _ _ _ _ _ _ _ _).
  set (st1 := mkState _ _ _ _ _ _ _).
  set (cats := default [] (vd_categories (with_author vd (user_id user)))).
  assert (Hrow1 : publications st1 !! pk = Some p0)
    by (subst st1; cbn; apply lookup_insert_eq).
  destruct (add_categories_fold pk cats st1 p0 Hrow1)
    as (st' & Hrun & Hrow & Hc & Hseq).
  destruct (add_categories_spec pk cats st1 p0 Hrow1)
    as (st'' & row' & Hrun' & _ & _ & Hother & Hframe).
  rewrite Hrun in Hrun'. inversion Hrun'; subst st''. clear Hrun'.
  rewrite Hrun. unfold refresh_categories. run.
  change (pub_id p0) with pk. rewrite Hrow.
  cbn [pub_categories with_categories] in *.
  set (p := with_categories p0 (fold_left add_if_new cats [])) in *.
  assert (Hothers : ∀ k, k ≠ pk → publications st' !! k = publications st !! k).
  { intros k Hk. rewrite (Hother k Hk). subst st1. cbn.
    now rewrite lookup_insert_ne by congruence. }
  exists st', p. split; [reflexivity|].
  split; [reflexivity|]. split; [exact Hseq|]. split; [exact Hrow|].
  split; [reflexivity|].
  split; [apply fold_add_if_new_NoDup; constructor|].
  split; [intros c; cbn [pub_categories p with_categories];
          rewrite fold_add_if_new_In; cbn; tauto|].
  split; [exact Hothers|]. split; [exact Hframe|].
  intros Hkeyed k q Hq.
  destruct (decide (k = pk)) as [->|Hne].
  - rewrite Hrow in Hq. inversion Hq. reflexivity.
  - rewrite (Hothers k Hne) in Hq. now apply Hkeyed.
Qed.

Lemma creation_stores_callers_publication_witness :
  ∃ st' p,
    perform_create writer retitle newsroom = (Ok p, st')
    ∧ pub_id p = 3
    ∧ publication_seq st' = pub_id p
    ∧ publications st' !! pub_id p = Some p
    ∧ author p = 4
    ∧ NoDup (pub_categories p)
    ∧ (∀ c, In c (pub_categories p) ↔ In c [])
    ∧ (∀ k, k ≠ pub_id p → publications st' !! k = publications newsroom !! k)
    ∧ frame newsroom st'
    ∧ (keyed newsroom → keyed st').
Proof. exact (creation_stores_callers_publication writer retitle newsroom). Defined.

(** ** Reactions: refusals, reach and accepted requests *)

(** A reaction to a publication that does not exist fails with [Http404],
    whatever the action; on an existing publication an action that is
    missing or is neither 'like' nor 'dislike' is answered with status 400.
    In both cases nothing is written: no ledger row is created. *)
Theorem patch_refused_without_writing user pk action st :
  (publications st !! pk = None →
     patch user pk action st = (Raise Http404, st))
  ∧ (∀ p, publications st !! pk = Some p →
          (∀ act, action = Some act → act ≠ "like" ∧ act ≠ "dislike") →
          patch user pk action st = (Ok invalid_action, st)).
Proof.
  split.
  - intros H. unfold patch.
    now rewrite (bind_raise _ _ _ _ _ (get_object_or_404_missing st pk H)).
  - intros p Hp Hact. unfold patch.
    rewrite (bind_ok _ _ _ _ _ (get_object_or_404_found st pk p Hp)).
    destruct action as [act|]; [|reflexivity].
    destruct (Hact act eq_refl) as [Hl Hd].
    now rewrite (string_eqb_neq _ _ Hl), (string_eqb_neq _ _ Hd).
Qed.

Lemma patch_refused_without_writing_witness :
  patch reader 9 (Some "like") newsroom = (Raise Http404, newsroom)
  ∧ patch reader 1 (Some "love") newsroom = (Ok invalid_action, newsroom).
Proof.
  split.
  - apply (proj1 (patch_refused_without_writing reader 9 (Some "like") newsroom)).
    reflexivity.
  - apply (proj2 (patch_refused_without_writing reader 1 (Some "love") newsroom)
             pending_publication).
    + reflexivity.
    + intros act H. inversion H. split; discriminate.
Defined.

(** In a keyed publication table, a reaction request reaches one ledger row
    only, the one of the caller for that publication: every other row, the
    publications with their views counters, the users and the
    notifications are what they were. *)
Theorem patch_reaches_one_row user pk action st :
  keyed st →
  (∀ k, k ≠ (pk, user_id user) →
     ledger (snd (patch user pk action st)) !! k = ledger st !! k)
  ∧ publications (snd (patch user pk action st)) = publications st
  ∧ users (snd (patch user pk action st)) = users st
  ∧ notifications (snd (patch user pk action st)) = notifications st.
Proof.
  intros Hkeyed.
  split; [|split; [apply patch_publications|split; [|apply patch_quiet]]].
  - intros k Hk. unfold patch, get_object_or_404. run.
    destruct (publications st !! pk) as [p|] eqn:Hp; [|reflexivity].
    rewrite (Hkeyed pk p Hp).
    destruct action as [act|]; [|reflexivity].
    destruct (negb _); [reflexivity|].
    unfold views_get_or_create. run.
    destruct (ledger st !! (pk, user_id user)) as [v|]; run; cbn [fst];
      destruct (String.eqb act "like");
      cbn [default_views user_liked user_disliked];
      try destruct (user_liked v); try destruct (user_disliked v);
      rewrite ?patch_finish_state, ?(Hkeyed pk p Hp);
      cbn [snd ledger set_ledger];
      rewrite ?lookup_insert_ne by congruence; reflexivity.
  - unfold patch, get_object_or_404. run.
    destruct (publications st !! pk) as [p|]; [|reflexivity].
    destruct action as [act|]; [|reflexivity].
    destruct (negb _); [reflexivity|].
    unfold views_get_or_create. run.
    destruct (ledger st !! (pub_id p, user_id user)) as [v|]; run; cbn [fst];
      destruct (String.eqb act "like");
      cbn [default_views user_liked user_disliked];
      try destruct (user_liked v); try destruct (user_disliked v); reflexivity.
Qed.

Lemma patch_reaches_one_row_witness :
  (∀ k, k ≠ (1, user_id reader) →
     ledger (snd (patch reader 1 (Some "like") newsroom)) !! k
     = ledger newsroom !! k)
  ∧ publications (snd (patch reader 1 (Some "like") newsroom))
    = publications newsroom
  ∧ users (snd (patch reader 1 (Some "like") newsroom)) = users newsroom
  ∧ notifications (snd (patch reader 1 (Some "like") newsroom))
    = notifications newsroom.
Proof.
  exact (patch_reaches_one_row reader 1 (Some "like") newsroom keyed_newsroom).
Defined.

(** A like is accepted whenever the caller's row is missing or not liked,
    and leaves that row liked and not disliked in one write, so a dislike
    is turned into a like by a single request; symmetrically for a
    dislike.  The answer has status 200 and names the publication, the
    caller and the action. *)
Theorem reaction_accepted user pk p st :
  publications st !! pk = Some p → pub_id p = pk →
  ((∀ v, ledger st !! (pk, user_id user) = Some v → user_liked v = false) →
     ∃ likes dislikes,
       patch user pk (Some "like") st
       = (Ok (mkResponse (ReactionBody pk (user_id user) "like" likes dislikes)
                         HTTP_200_OK),
          set_ledger (fun t => <[(pk, user_id user) := mkViews true false]> t) st))
  ∧ ((∀ v, ledger st !! (pk, user_id user) = Some v → user_disliked v = false) →
     ∃ likes dislikes,
       patch user pk (Some "dislike") st
       = (Ok (mkResponse (ReactionBody pk (user_id user) "dislike" likes dislikes)
                         HTTP_200_OK),
          set_ledger (fun t => <[(pk, user_id user) := mkViews false true]> t) st)).
Proof.
  intros Hp Hk.
  split; intros Hflag; unfold patch;
    rewrite (bind_ok _ _ _ _ _ (get_object_or_404_found st pk p Hp));
    cbn [negb String.eqb Ascii.eqb Bool.eqb orb];
    unfold views_get_or_create; run; rewrite Hk;
    destruct (ledger st !! (pk, user_id user)) as [v|] eqn:Hl; run; cbn [fst].
  - rewrite (Hflag v eq_refl). unfold patch_finish, save_views_row,
      total_likes, total_dislikes. run. rewrite Hk. eexists _, _. reflexivity.
  - cbn [default_views user_liked]. unfold patch_finish, save_views_row,
      total_likes, total_dislikes. run. rewrite Hk. eexists _, _.
    f_equal. unfold set_ledger. cbn. f_equal. apply insert_insert_eq.
  - rewrite (Hflag v eq_refl). unfold patch_finish, save_views_row,
      total_likes, total_dislikes. run. rewrite Hk. eexists _, _. reflexivity.
  - cbn [default_views user_disliked]. unfold patch_finish, save_views_row,
      total_likes, total_dislikes. run. rewrite Hk. eexists _, _.
    f_equal. unfold set_ledger. cbn. f_equal. apply insert_insert_eq.
Qed.

Lemma reaction_accepted_witness :
  ∃ likes dislikes,
    patch reader 1 (Some "like")
      (set_ledger (fun t => <[(1, 7) := mkViews false true]> t) reading_room)
    = (Ok (mkResponse (ReactionBody 1 7 "like" likes dislikes) HTTP_200_OK),
       set_ledger (fun t => <[(1, 7) := mkViews true false]> t)
         (set_ledger (fun t => <[(1, 7) := mkViews false true]> t)
            reading_room)).
Proof.
  apply (proj1 (reaction_accepted reader 1 approved_publication
                  (set_ledger (fun t => <[(1, 7) := mkViews false true]> t)
                     reading_room)
                  eq_refl eq_refl)).
  intros v H. vm_compute in H. inversion H. reflexivity.
Defined.

(** ** Notifications: marking as read *)

Lemma find_none_iff {A} (f : A → bool) (l : list A) :
  find f l = None ↔ ∀ x, In x l → f x = false.
Proof.
  split.
  - intros H x Hx. now apply (find_none f l H).
  - induction l as [|y l IH]; intros H; [reflexivity|]. cbn.
    rewrite (H y (or_introl eq_refl)). apply IH.
    intros x Hx. apply H. now right.
Qed.

(** A mark-read request for an identifier that is not among the caller's
    own notifications, because there is no such notification or because it
    is addressed to someone else, fails with [Http404] and nothing is
    written. *)
Theorem mark_read_not_found user pk vd st :
  (∀ n, In n (notifications st) → notif_id n = pk →
        notif_user n ≠ user_id user) →
  mark_read user pk vd st = (Raise Http404, st).
Proof.
  intros H. unfold mark_read. run.
  assert (E : find (fun n => Z.eqb (notif_id n) pk) (notifications_of user st)
              = None).
  { apply find_none_iff. intros n Hn. unfold notifications_of in Hn.
    apply filter_In in Hn. destruct Hn as [Hin Hu]. apply Z.eqb_eq in Hu.
    apply Z.eqb_neq. intros Hid. now apply (H n Hin Hid). }
  now rewrite E.
Qed.

Lemma mark_read_not_found_witness :
  mark_read writer 2 read_and_rewrite inbox = (Raise Http404, inbox)
  ∧ mark_read writer 5 read_and_rewrite inbox = (Raise Http404, inbox).
Proof.
  split.
  - apply (mark_read_not_found writer 2 read_and_rewrite inbox).
    intros n Hn Hid. cbn in Hn.
    destruct Hn as [<-|[<-|[]]]; [discriminate Hid|discriminate].
  - apply (mark_read_not_found writer 5 read_and_rewrite inbox).
    intros n Hn Hid. cbn in Hn.
    destruct Hn as [<-|[<-|[]]]; discriminate Hid.
Defined.

Lemma map_replace_self (l : list Notification) (n : Notification) :
  NoDup (map notif_id l) → In n l →
  map (fun row => if Z.eqb (notif_id row) (notif_id n) then n else row) l = l.
Proof.
  intros Hnd Hin. rewrite <- (map_id l) at 2. apply map_ext_in.
  intros row Hrow. destruct (Z.eqb (notif_id row) (notif_id n)) eqn:E;
    [|reflexivity].
  apply Z.eqb_eq in E. symmetry. eapply row_by_id; eauto.
Qed.

Lemma find_owned user pk st n :
  NoDup (map notif_id (notifications st)) →
  In n (notifications st) → notif_id n = pk → notif_user n = user_id user →
  find (fun m => Z.eqb (notif_id m) pk) (notifications_of user st) = Some n.
Proof.
  intros Hnd Hin Hid Hu.
  destruct (find _ _) as [m|] eqn:E.
  - apply find_some in E. destruct E as [Hm Hmid].
    unfold notifications_of in Hm. apply filter_In in Hm.
    destruct Hm as [Hm _]. apply Z.eqb_eq in Hmid. f_equal.
    eapply row_by_id; eauto. congruence.
  - exfalso. rewrite find_none_iff in E.
    assert (Hn : In n (notifications_of user st)).
    { unfold notifications_of. apply filter_In. split; [exact Hin|].
      now apply Z.eqb_eq. }
    specialize (E n Hn). apply Z.eqb_neq in E. contradiction.
Qed.

(** On a table with distinct identifiers, a mark-read request for one of
    the caller's notifications stores the [is_read] value of the payload,
    true or false, on that notification; a payload without [is_read]
    changes nothing at all, so the notification is not marked as read. *)
Theorem mark_read_stores_payload_flag user pk vd st n :
  NoDup (map notif_id (notifications st)) →
  In n (notifications st) → notif_id n = pk → notif_user n = user_id user →
  (∀ b, nd_is_read vd = Some b →
     ∃ st',
       mark_read user pk vd st = (Ok (with_is_read n b), st')
       ∧ In (with_is_read n b) (notifications st')
       ∧ length (notifications st') = length (notifications st))
  ∧ (nd_is_read vd = None → mark_read user pk vd st = (Ok n, st)).
Proof.
  intros Hnd Hin Hid Hu.
  unfold mark_read. run.
  rewrite (find_owned user pk st n Hnd Hin Hid Hu).
  unfold notification_update, notification_save, notification_assign. run.
  split.
  - intros b Hb. rewrite Hb. cbn [default notif_id].
    eexists. split; [reflexivity|].
    cbn [notifications set_notifications]. split; [|apply length_map].
    apply in_map_iff. exists n. split; [|exact Hin].
    now rewrite Z.eqb_refl.
  - intros Hb. rewrite Hb. cbn [default notif_id].
    assert (E : mkNotification (notif_id n) (notif_user n) (message n)
                  (is_read n) (created_at n) (related_publication n) = n)
      by now destruct n.
    rewrite E. f_equal. unfold set_notifications.
    rewrite (map_replace_self _ n Hnd Hin). now destruct st.
Qed.

Lemma mark_read_stores_payload_flag_witness :
  (∃ st',
     mark_read writer 1 read_and_rewrite inbox
     = (Ok (with_is_read
              (mkNotification 1 4 "Your publication was rejected." false 1200 1)
              true),
        st')
     ∧ In (with_is_read
             (mkNotification 1 4 "Your publication was rejected." false 1200 1)
             true)
          (notifications st')
     ∧ length (notifications st') = length (notifications inbox))
  ∧ mark_read writer 1 (mkNotificationData (Some "forged") None) inbox
    = (Ok (mkNotification 1 4 "Your publication was rejected." false 1200 1),
       inbox).
Proof.
  split.
  - apply (proj1 (mark_read_stores_payload_flag writer 1 read_and_rewrite inbox
                    (mkNotification 1 4 "Your publication was rejected." false
                                    1200 1)
                    ltac:(apply (bool_decide_unpack _); vm_compute; exact I)
                    ltac:(left; reflexivity) eq_refl eq_refl) true).
    reflexivity.
  - apply (proj2 (mark_read_stores_payload_flag writer 1
                    (mkNotificationData (Some "forged") None) inbox
                    (mkNotification 1 4 "Your publication was rejected." false
                                    1200 1)
                    ltac:(apply (bool_decide_unpack _); vm_compute; exact I)
                    ltac:(left; reflexivity) eq_refl eq_refl)).
    reflexivity.
Defined.

Lemma existsb_false_iff {A} (f : A → bool) (l : list A) :
  existsb f l = false ↔ ∀ x, In x l → f x = false.
Proof.
  induction l as [|y l IH]; cbn.
  - tauto.
  - rewrite orb_false_iff, IH. split.
    + intros [Hy Hl] x [<-|Hx]; auto.
    + intros H. split; [apply H; now left|]. intros x Hx. apply H. now right.
Qed.

Lemma mark_all_read_clears user st n :
  In n (notifications (snd (mark_all_read user st))) →
  Z.eqb (notif_user n) (user_id user) && negb (is_read n) = false.
Proof.
  unfold mark_all_read. run.
  destruct (existsb _ (notifications st)) eqn:E; cbn [negb snd].
  - cbn [notifications set_notifications]. rewrite in_map_iff.
    intros (m & <- & _).
    destruct (Z.eqb (notif_user m) (user_id user) && negb (is_read m)) eqn:Em.
    + cbn. now rewrite andb_false_r.
    + exact Em.
  - intros Hn. now apply (proj1 (existsb_false_iff _ _) E).
Qed.

Lemma filter_nil_iff {A} (f : A → bool) (l : list A) :
  (∀ x, In x l → f x = false) → List.filter f l = [].
Proof.
  induction l as [|y l IH]; intros H; [reflexivity|]. cbn.
  rewrite (H y (or_introl eq_refl)). apply IH. intros x Hx. apply H. now right.
Qed.

(** Marking all as read leaves the caller without an unread notification;
    it rewrites [is_read] only, and only on rows that are the caller's and
    unread: every other row is identical, the table keeps its length and
    order, and the publications, the users and the ledger are what they
    were. *)
Theorem mark_all_read_effect user st :
  (∀ n, In n (notifications (snd (mark_all_read user st))) →
        notif_user n = user_id user → is_read n = true)
  ∧ Forall2 (fun n n' =>
               same_but_is_read n n'
               ∧ (notif_user n ≠ user_id user ∨ is_read n = true → n' = n))
            (notifications st) (notifications (snd (mark_all_read user st)))
  ∧ publications (snd (mark_all_read user st)) = publications st
  ∧ users (snd (mark_all_read user st)) = users st
  ∧ ledger (snd (mark_all_read user st)) = ledger st.
Proof.
  split.
  { intros n Hn Hu. apply mark_all_read_clears in Hn.
    apply Z.eqb_eq in Hu. rewrite Hu in Hn. cbn in Hn.
    now apply negb_false_iff in Hn. }
  unfold mark_all_read. run.
  destruct (existsb _ (notifications st)); cbn [negb snd].
  - cbn [notifications set_notifications publications users ledger].
    split; [|repeat split].
    apply Forall2_map_self. intros n _.
    destruct (Z.eqb (notif_user n) (user_id user)) eqn:Eu;
      destruct (is_read n) eqn:Er; cbn [andb negb].
    + split; [apply same_but_is_read_refl|reflexivity].
    + split; [repeat split|]. apply Z.eqb_eq in Eu.
      intros [H|H]; [contradiction|discriminate].
    + split; [apply same_but_is_read_refl|reflexivity].
    + split; [apply same_but_is_read_refl|reflexivity].
  - split; [|repeat split].
    rewrite <- (map_id (notifications st)) at 2.
    apply Forall2_map_self. intros n _.
    split; [apply same_but_is_read_refl|reflexivity].
Qed.

(** After marking all as read the caller's unread listing is empty, and a
    second request is answered "No unread notifications to mark as read."
    and changes nothing; the same answer, without any write, is given
    whenever the caller has no unread notification. *)
Theorem mark_all_read_then_nothing_unread user st :
  unread_queryset (AuthUser user) (snd (mark_all_read user st)) = []
  ∧ mark_all_read user (snd (mark_all_read user st))
    = (Ok nothing_unread, snd (mark_all_read user st))
  ∧ ((∀ n, In n (notifications st) → notif_user n = user_id user →
           is_read n = true) →
     mark_all_read user st = (Ok nothing_unread, st)).
Proof.
  assert (Quiet : ∀ s,
            (∀ n, In n (notifications s) →
                  Z.eqb (notif_user n) (user_id user) && negb (is_read n)
                  = false) →
            mark_all_read user s = (Ok nothing_unread, s)).
  { intros s Hs. unfold mark_all_read. run.
    rewrite (proj2 (existsb_false_iff _ _) Hs). reflexivity. }
  split; [|split].
  - cbn [unread_queryset].
    rewrite (filter_nil_iff _ _ (mark_all_read_clears user st)). reflexivity.
  - apply Quiet. apply mark_all_read_clears.
  - intros H. apply Quiet. intros n Hn.
    destruct (Z.eqb (notif_user n) (user_id user)) eqn:Eu; [|reflexivity].
    apply Z.eqb_eq in Eu. now rewrite (H n Hn Eu).
Qed.

Lemma mark_all_read_then_nothing_unread_witness :
  mark_all_read reader inbox = (Ok nothing_unread, inbox).
Proof.
  apply (proj2 (proj2 (mark_all_read_then_nothing_unread reader inbox))).
  intros n Hn Hu. cbn in Hn.
  destruct Hn as [<-|[<-|[]]]; discriminate Hu.
Defined.

(** A successful status change reaches the unread listings: the author of
    the publication, and every other editor, finds there a notification
    about that publication, carrying the message made for them. *)
Theorem status_change_reaches_unread_listings
    clk user data vd instance st sv :
  role user = "editor" →
  status instance ≠ "rejected" →
  status_value_of data = Some sv →
  data_rejection_note data ≠ Some JNull →
  ∃ st' p',
    perform_update clk user data vd instance st
      = (Ok (status_updated (provided_note data)), st')
    ∧ publications st' !! pub_id instance = Some p'
    ∧ (∀ a, user_id a = author p' →
         ∃ n, In n (unread_queryset (AuthUser a) st')
              ∧ related_publication n = pub_id instance
              ∧ message n = author_message clk p' sv)
    ∧ (∀ e, In e (users st) → role e = "editor" →
            user_id e ≠ user_id user →
         ∃ n, In n (unread_queryset (AuthUser e) st')
              ∧ related_publication n = pub_id instance
              ∧ message n = editor_message clk p' sv user).
Proof.
  intros Hrole Hst Hsv Hnote.
  destruct (perform_update_status clk user data vd instance st sv
              Hrole Hst Hsv Hnote)
    as (st' & p' & na & nes & Hrun & Hrow & _ & _ & _ & _ & Hns & Hna & Hnes).
  assert (Listed : ∀ a n, In n (na :: nes) → notif_user n = user_id a →
                          is_read n = false →
                          In n (unread_queryset (AuthUser a) st')).
  { intros a n Hin Hu Hr. cbn [unread_queryset].
    apply list_elem_of_In. rewrite (merge_sort_Permutation newer_first).
    apply list_elem_of_In, filter_In. split.
    - rewrite Hns. apply in_or_app. now right.
    - rewrite Hu, Z.eqb_refl, Hr. reflexivity. }
  exists st', p'. split; [exact Hrun|]. split; [exact Hrow|]. split.
  - intros a Ha. destruct Hna as (Hu & Hm & Hr & _ & Hrel).
    exists na. split; [|split; assumption].
    apply Listed; [now left|congruence|exact Hr].
  - intros e He Hre Hne.
    assert (Hin : In e (other_editors user st)).
    { apply other_editors_spec. tauto. }
    assert (G : ∃ n, In n nes
                     ∧ fresh_notification clk (user_id e)
                         (editor_message clk p' sv user) (pub_id instance) n).
    { clear - Hin Hnes. induction Hnes as [|n e' ns es Hhd Htl IH]; [contradiction|].
      destruct Hin as [->|Hin].
      - exists n. split; [now left|exact Hhd].
      - destruct (IH Hin) as (m & Hm & Hf). exists m. split; [now right|exact Hf]. }
    destruct G as (n & Hn & (Hu & Hm & Hr & _ & Hrel)).
    exists n. split; [|split; assumption].
    apply Listed; [now right|exact Hu|exact Hr].
Qed.

Lemma status_change_reaches_unread_listings_witness :
  ∃ st' p',
    perform_update noon chief reject_with_note empty_validated_data
      pending_publication newsroom
      = (Ok (status_updated (Some "too short")), st')
    ∧ publications st' !! 1 = Some p'
    ∧ (∀ a, user_id a = author p' →
         ∃ n, In n (unread_queryset (AuthUser a) st')
              ∧ related_publication n = 1
              ∧ message n = author_message noon p' "rejected")
    ∧ (∀ e, In e (users newsroom) → role e = "editor" →
            user_id e ≠ user_id chief →
         ∃ n, In n (unread_queryset (AuthUser e) st')
              ∧ related_publication n = 1
              ∧ message n = editor_message noon p' "rejected" chief).
Proof.
  apply (status_change_reaches_unread_listings noon chief reject_with_note
           empty_validated_data pending_publication newsroom "rejected");
    [reflexivity | discriminate | reflexivity | discriminate].
Defined.

(** ** Strings: white space, commas, splitting and joining *)

Lemma app_cons (c : ascii) (s t : string) :
  String c s ++ t = String c (s ++ t).
Proof. reflexivity. Qed.

Lemma app_empty_r (s : string) : s ++ "" = s.
Proof.
  induction s as [|c s IH]; [reflexivity|]. now rewrite app_cons, IH.
Qed.

Lemma app_string_assoc (a b c : string) : (a ++ b) ++ c = a ++ (b ++ c).
Proof.
  induction a as [|x a IH]; [reflexivity|]. now rewrite !app_cons, IH.
Qed.

Lemma length_app_string (a b : string) :
  String.length (a ++ b) = (String.length a + String.length b)%nat.
Proof.
  induction a as [|x a IH]; [reflexivity|].
  rewrite app_cons. cbn [String.length]. now rewrite IH.
Qed.

Lemma lstrip_empty (s : string) :
  PyStr.is_empty (PyStr.lstrip s) = all_space s.
Proof.
  induction s as [|c s IH]; cbn; [reflexivity|].
  destruct (PyStr.is_space c); cbn; [exact IH|reflexivity].
Qed.

Lemma rstrip_empty (s : string) :
  PyStr.is_empty (PyStr.rstrip s) = all_space s.
Proof.
  induction s as [|c s IH]; cbn; [reflexivity|].
  rewrite IH. destruct (PyStr.is_space c), (all_space s); reflexivity.
Qed.

Lemma all_space_lstrip (s : string) :
  all_space (PyStr.lstrip s) = all_space s.
Proof.
  induction s as [|c s IH]; cbn; [reflexivity|].
  destruct (PyStr.is_space c) eqn:E; cbn; [exact IH|now rewrite E].
Qed.

(** A string strips to the empty string exactly when it is made of white
    space. *)
Lemma strip_truthy (s : string) :
  PyStr.truthy (PyStr.strip s) = negb (all_space s).
Proof.
  unfold PyStr.truthy, PyStr.strip.
  now rewrite rstrip_empty, all_space_lstrip.
Qed.

Lemma lstrip_head (s : string) :
  match PyStr.lstrip s with
  | EmptyString => True
  | String c _ => PyStr.is_space c = false
  end.
Proof.
  induction s as [|c s IH]; cbn; [exact I|].
  destruct (PyStr.is_space c) eqn:E; [exact IH|exact E].
Qed.

Lemma rstrip_rstrip (s : string) :
  PyStr.rstrip (PyStr.rstrip s) = PyStr.rstrip s.
Proof.
  induction s as [|c s IH]; cbn; [reflexivity|].
  destruct (PyStr.is_space c && PyStr.is_empty (PyStr.rstrip s)) eqn:E;
    [reflexivity|].
  cbn. rewrite IH, E. reflexivity.
Qed.

Lemma lstrip_rstrip_head (s : string) :
  match s with
  | EmptyString => True
  | String c _ => PyStr.is_space c = false
  end →
  PyStr.lstrip (PyStr.rstrip s) = PyStr.rstrip s.
Proof.
  destruct s as [|c s]; [reflexivity|]. intros H. cbn. rewrite H. cbn.
  now rewrite H.
Qed.

Lemma strip_strip (s : string) : PyStr.strip (PyStr.strip s) = PyStr.strip s.
Proof.
  unfold PyStr.strip.
  rewrite (lstrip_rstrip_head (PyStr.lstrip s) (lstrip_head s)).
  apply rstrip_rstrip.
Qed.

Lemma length_lstrip (s : string) :
  (String.length (PyStr.lstrip s) <= String.length s)%nat.
Proof.
  induction s as [|c s IH]; cbn; [lia|].
  destruct (PyStr.is_space c); cbn; lia.
Qed.

Lemma length_rstrip (s : string) :
  (String.length (PyStr.rstrip s) <= String.length s)%nat.
Proof.
  induction s as [|c s IH]; cbn; [lia|].
  destruct (_ && _); cbn; lia.
Qed.

Lemma length_strip (s : string) :
  (String.length (PyStr.strip s) <= String.length s)%nat.
Proof.
  unfold PyStr.strip. pose proof (length_rstrip (PyStr.lstrip s)).
  pose proof (length_lstrip s). lia.
Qed.

Lemma comma_free_lstrip (s : string) :
  comma_free s = true → comma_free (PyStr.lstrip s) = true.
Proof.
  induction s as [|c s IH]; cbn; [easy|].
  intros H. apply andb_true_iff in H. destruct H as [Hc Hs].
  destruct (PyStr.is_space c); [now apply IH|]. cbn. now rewrite Hc, Hs.
Qed.

Lemma comma_free_rstrip (s : string) :
  comma_free s = true → comma_free (PyStr.rstrip s) = true.
Proof.
  induction s as [|c s IH]; cbn; [easy|].
  intros H. apply andb_true_iff in H. destruct H as [Hc Hs].
  destruct (_ && _); [reflexivity|]. cbn. now rewrite Hc, IH.
Qed.

Lemma comma_free_strip (s : string) :
  comma_free s = true → comma_free (PyStr.strip s) = true.
Proof.
  intros H. unfold PyStr.strip. now apply comma_free_rstrip, comma_free_lstrip.
Qed.

Lemma comma_free_app (a b : string) :
  comma_free (a ++ b) = comma_free a && comma_free b.
Proof.
  induction a as [|c a IH]; [reflexivity|].
  rewrite app_cons. cbn [comma_free]. now rewrite IH, andb_assoc.
Qed.

Lemma split_comma_aux_comma_free (s : string) : ∀ cur,
  comma_free cur = true →
  Forall (fun k => comma_free k = true) (PyStr.split_comma_aux cur s).
Proof.
  induction s as [|c s IH]; intros cur Hcur; cbn.
  - now constructor.
  - destruct (Ascii.eqb c ",") eqn:E.
    + constructor; [exact Hcur|]. now apply IH.
    + apply IH. rewrite comma_free_app, Hcur. cbn [comma_free andb].
      now rewrite E.
Qed.

Lemma split_comma_aux_nonempty cur s : PyStr.split_comma_aux cur s ≠ [].
Proof.
  revert cur. induction s as [|c s IH]; intros cur; cbn; [discriminate|].
  destruct (Ascii.eqb c ","); [discriminate|apply IH].
Qed.

(** Splitting at the commas and joining with commas gives the string
    back. *)
Lemma join_split_aux (s : string) : ∀ cur,
  join_comma (PyStr.split_comma_aux cur s) = cur ++ s.
Proof.
  induction s as [|c s IH]; intros cur; cbn [PyStr.split_comma_aux].
  - cbn. now rewrite app_empty_r.
  - destruct (Ascii.eqb c ",") eqn:E.
    + apply Ascii.eqb_eq in E. subst c.
      pose proof (IH "") as H.
      destruct (PyStr.split_comma_aux "" s) as [|y l] eqn:El.
      * now apply split_comma_aux_nonempty in El.
      * cbn [join_comma] in *. rewrite H. reflexivity.
    + rewrite IH, app_string_assoc. reflexivity.
Qed.

Lemma join_split (s : string) : join_comma (PyStr.split_comma s) = s.
Proof. unfold PyStr.split_comma. now rewrite join_split_aux. Qed.

Lemma split_aux_app (t : string) : ∀ cur rest,
  comma_free t = true →
  PyStr.split_comma_aux cur (t ++ rest)
  = PyStr.split_comma_aux (cur ++ t) rest.
Proof.
  induction t as [|c t IH]; intros cur rest Ht.
  - rewrite app_empty_r. reflexivity.
  - cbn in Ht. apply andb_true_iff in Ht. destruct Ht as [Hc Ht].
    apply negb_true_iff in Hc. rewrite app_cons.
    cbn [PyStr.split_comma_aux].
    rewrite Hc, (IH _ _ Ht), app_string_assoc. reflexivity.
Qed.

(** Joining comma-free parts with commas and splitting at the commas
    gives the parts back. *)
Lemma split_join (l : list string) :
  l ≠ [] → Forall (fun k => comma_free k = true) l →
  PyStr.split_comma (join_comma l) = l.
Proof.
  induction l as [|x l IH]; intros Hne Hall; [contradiction|].
  inversion Hall as [|? ? Hx Hl]; subst.
  unfold PyStr.split_comma in *. destruct l as [|y l].
  - cbn [join_comma]. rewrite <- (app_empty_r x) at 1.
    rewrite (split_aux_app x "" "" Hx). reflexivity.
  - change (join_comma (x :: y :: l))
      with (x ++ String ","%char (join_comma (y :: l))).
    rewrite (split_aux_app x "" _ Hx).
    change (PyStr.split_comma_aux ("" ++ x)
              (String ","%char (join_comma (y :: l))))
      with (x :: PyStr.split_comma_aux "" (join_comma (y :: l))).
    f_equal. apply IH; [discriminate|exact Hl].
Qed.

(** ** Keyword lists and the validators *)

Lemma keyword_list_is_clean_aux (value : string) :
  Forall (fun k => k ≠ "" ∧ PyStr.strip k = k ∧ comma_free k = true
                   ∧ all_space k = false)
         (keyword_list_of value).
Proof.
  unfold keyword_list_of. apply List.Forall_forall. intros k Hk.
  apply in_map_iff in Hk. destruct Hk as (x & <- & Hx).
  apply filter_In in Hx. destruct Hx as [Hin Ht].
  assert (Hcf : comma_free x = true).
  { pose proof (split_comma_aux_comma_free value "" eq_refl) as H.
    rewrite List.Forall_forall in H. now apply H. }
  split; [|split; [apply strip_strip|split; [now apply comma_free_strip|]]].
  - intros E. rewrite E in Ht. discriminate.
  - pose proof (strip_truthy (PyStr.strip x)) as H.
    rewrite strip_strip, Ht in H. now destruct (all_space (PyStr.strip x)).
Qed.

(** The keyword list read from a comma-separated string, by the listing
    and by the keyword validator alike, holds no empty keyword, no keyword
    with white space around it and no keyword with a comma in it. *)
Theorem keyword_list_is_clean (value : string) :
  Forall (fun k => k ≠ "" ∧ PyStr.strip k = k ∧ comma_free k = true
                   ∧ all_space k = false)
         (keyword_list_of value).
Proof. apply keyword_list_is_clean_aux. Qed.

Lemma length_join (l : list string) :
  l ≠ [] → S (String.length (join_comma l)) = weight l.
Proof.
  induction l as [|x l IH]; intros Hne; [contradiction|].
  destruct l as [|y l].
  - cbn. lia.
  - change (join_comma (x :: y :: l))
      with (x ++ String ","%char (join_comma (y :: l))).
    rewrite length_app_string. cbn [String.length weight] in *.
    rewrite <- IH by discriminate. lia.
Qed.

Lemma weight_keywords (f : string → bool) (l : list string) :
  (weight (map PyStr.strip (List.filter f l)) <= weight l)%nat.
Proof.
  induction l as [|x l IH]; cbn [List.filter map weight]; [lia|].
  destruct (f x); cbn [map weight]; pose proof (length_strip x); lia.
Qed.

Lemma length_join_keywords (value : string) :
  (String.length (join_comma (keyword_list_of value)) <= String.length value)%nat.
Proof.
  destruct (keyword_list_of value) as [|k ks] eqn:E; [cbn; lia|].
  assert (H1 : S (String.length (join_comma (k :: ks))) = weight (k :: ks))
    by (apply length_join; discriminate).
  assert (H2 : S (String.length (join_comma (PyStr.split_comma value)))
               = weight (PyStr.split_comma value))
    by (apply length_join, split_comma_aux_nonempty).
  rewrite join_split in H2.
  pose proof (weight_keywords (fun k => PyStr.truthy (PyStr.strip k))
                (PyStr.split_comma value)) as H3.
  fold (keyword_list_of value) in H3. rewrite E in H3. lia.
Qed.

Lemma clean_keywords_fixed (l : list string) :
  Forall (fun k => k ≠ "" ∧ PyStr.strip k = k ∧ comma_free k = true
                   ∧ all_space k = false) l →
  map PyStr.strip (List.filter (fun k => PyStr.truthy (PyStr.strip k)) l) = l.
Proof.
  induction 1 as [|k ks (Hk & Hs & _ & _) _ IH]; [reflexivity|].
  cbn [List.filter]. rewrite Hs.
  destruct k; [contradiction|]. cbn [PyStr.truthy PyStr.is_empty negb map].
  rewrite Hs. now f_equal.
Qed.

Lemma keyword_list_of_join (value : string) :
  keyword_list_of value ≠ [] →
  keyword_list_of (join_comma (keyword_list_of value)) = keyword_list_of value
  ∧ PyStr.split_comma (join_comma (keyword_list_of value))
    = keyword_list_of value.
Proof.
  intros Hne. pose proof (keyword_list_is_clean_aux value) as Hclean.
  assert (Hsplit : PyStr.split_comma (join_comma (keyword_list_of value))
                   = keyword_list_of value).
  { apply split_join; [exact Hne|].
    eapply Forall_impl; [exact Hclean|]. now intros k (_ & _ & H & _). }
  split; [|exact Hsplit].
  unfold keyword_list_of at 1. rewrite Hsplit.
  now apply clean_keywords_fixed.
Qed.

(** Accepted keywords are stored in normal form: the stored string is the
    keyword list joined by commas, it is not longer than the input,
    validating it again returns it unchanged, and unless it is empty its
    comma-separated parts are exactly the keywords, at most 20 of them. *)
Theorem accepted_keywords_are_normal (value stored : string) :
  validate_keywords value = Valid stored →
  stored = join_comma (keyword_list_of value)
  ∧ validate_keywords stored = Valid stored
  ∧ len stored <= len value
  ∧ len stored <= 500
  ∧ (stored ≠ "" →
     PyStr.split_comma stored = keyword_list_of value
     ∧ (length (PyStr.split_comma stored) <= 20)%nat).
Proof.
  unfold validate_keywords at 1.
  destruct (PyStr.truthy value) eqn:Ht.
  2:{ intros H. inversion H; subst stored. destruct value; [|discriminate].
      split; [reflexivity|]. split; [reflexivity|].
      split; [unfold len; cbn; lia|]. split; [unfold len; cbn; lia|].
      intros Hne. now contradiction Hne. }
  destruct (500 <? len value)%Z eqn:Hlen; [discriminate|].
  destruct (20 <? Z.of_nat (length (keyword_list_of value)))%Z eqn:Hn;
    [discriminate|].
  intros H. inversion H as [Hs]. clear H.
  apply Z.ltb_ge in Hlen, Hn.
  pose proof (length_join_keywords value) as Hle.
  assert (Hlen' : len (join_comma (keyword_list_of value)) <= len value)
    by (unfold len; lia).
  split; [reflexivity|].
  destruct (keyword_list_of value) as [|k ks] eqn:E.
  { cbn [join_comma] in *. split; [reflexivity|].
    split; [unfold len in *; cbn; lia|]. split; [unfold len; cbn; lia|].
    intros Hne. now contradiction Hne. }
  rewrite <- E in *.
  destruct (keyword_list_of_join value) as [Hfix Hsplit];
    [rewrite E; discriminate|].
  split; [|split; [exact Hlen'|split; [lia|]]].
  - unfold validate_keywords.
    assert (Hne : PyStr.truthy (join_comma (keyword_list_of value)) = true).
    { rewrite E. pose proof (keyword_list_is_clean_aux value) as Hc.
      rewrite E in Hc. inversion Hc as [|? ? (Hk & _) _]; subst.
      destruct k; [contradiction|]. destruct ks; reflexivity. }
    rewrite Hne.
    assert (Hl : (500 <? len (join_comma (keyword_list_of value)))%Z = false)
      by (apply Z.ltb_ge; lia).
    rewrite Hl, Hfix.
    assert (Hc : (20 <? Z.of_nat (length (keyword_list_of value)))%Z = false)
      by (apply Z.ltb_ge; lia).
    rewrite Hc. reflexivity.
  - intros _. split; [exact Hsplit|]. rewrite Hsplit. lia.
Qed.

Lemma accepted_keywords_are_normal_witness :
  "tides,moon,sea" = join_comma (keyword_list_of " tides , moon,, sea ")
  ∧ validate_keywords "tides,moon,sea" = Valid "tides,moon,sea"
  ∧ len "tides,moon,sea" <= len " tides , moon,, sea "
  ∧ len "tides,moon,sea" <= 500
  ∧ ("tides,moon,sea" ≠ "" →
     PyStr.split_comma "tides,moon,sea" = keyword_list_of " tides , moon,, sea "
     ∧ (length (PyStr.split_comma "tides,moon,sea") <= 20)%nat).
Proof.
  apply (accepted_keywords_are_normal " tides , moon,, sea " "tides,moon,sea").
  vm_compute. reflexivity.
Defined.

(** The text validators store what they are given, white space around it
    included, and measure the length of the text as given.  A title is
    accepted exactly when it is not made of white space and has 10
    characters or more; an abstract, when it is not made of white space
    and has 200 to 1000 characters; a content, when it is not made of
    white space and has 500 to 10000 characters; a notification message,
    when it is not made of white space and has at most 1000 characters. *)
Theorem text_validators_accept :
  (∀ v, validate_title v = Valid v ↔ all_space v = false ∧ 10 <= len v)
  ∧ (∀ v, validate_abstract v = Valid v
          ↔ all_space v = false ∧ 200 <= len v ∧ len v <= 1000)
  ∧ (∀ v, validate_content v = Valid v
          ↔ all_space v = false ∧ 500 <= len v ∧ len v <= 10000)
  ∧ (∀ v, validate_message v = Valid v
          ↔ all_space v = false ∧ len v <= 1000)
  ∧ (∀ v w, validate_title v = Valid w ∨ validate_abstract v = Valid w
            ∨ validate_content v = Valid w ∨ validate_message v = Valid w →
            w = v).
Proof.
  unfold validate_title, validate_abstract, validate_content, validate_message.
  split; [|split; [|split; [|split]]].
  1-4: intros v; rewrite strip_truthy, negb_involutive;
    destruct (all_space v);
    [split; [discriminate|intros [H _]; discriminate]|];
    repeat match goal with
           | |- context [(?a <? ?b)%Z] => destruct (Z.ltb_spec a b)
           end;
    split; try discriminate; try (intros _; reflexivity);
    try (intros _; repeat split; lia); intros K; exfalso; lia.
  intros v w. rewrite !strip_truthy, !negb_involutive.
  destruct (all_space v);
    repeat match goal with
           | |- context [(?a <? ?b)%Z] => destruct (Z.ltb_spec a b)
           end;
    intros [K|[K|[K|K]]]; inversion K; reflexivity.
Qed.

Lemma is_empty_py_lower (s : string) :
  PyStr.is_empty (py_lower s) = PyStr.is_empty s.
Proof. now destruct s. Qed.

Lemma validate_upload_verdict limit too_large suffixes wrong_type f :
  validate_upload limit too_large suffixes wrong_type (Some f) = Valid (Some f)
  ↔ (PyStr.is_empty (py_lower (file_name f)) = true
     ∨ (file_size f <= limit
        ∧ endswith_any (py_lower (file_name f)) suffixes = true)).
Proof.
  unfold validate_upload, file_truthy, PyStr.truthy.
  rewrite is_empty_py_lower.
  destruct (PyStr.is_empty (file_name f)); cbn [negb].
  - split; [now left|reflexivity].
  - destruct (Z.ltb_spec limit (file_size f)) as [E|E].
    + split; [discriminate|]. intros [H|[H _]]; [discriminate|lia].
    + destruct (endswith_any _ _); cbn [negb].
      * split; [intros _; right; split; [lia|reflexivity]|reflexivity].
      * split; [discriminate|]. intros [H|[_ H]]; discriminate.
Qed.

(** The upload validators judge a file by its size and by its name in
    lower case only: two files of the same size whose names differ in
    letter case alone are both accepted or both rejected.  A named file
    over the limit, 10 MB for a document and 50 MB for a video, is
    rejected for its size whatever its extension, and a missing file is
    accepted. *)
Theorem upload_validators_ignore_case :
  (∀ f g, file_size f = file_size g →
          py_lower (file_name f) = py_lower (file_name g) →
          (validate_file (Some f) = Valid (Some f)
           ↔ validate_file (Some g) = Valid (Some g))
          ∧ (validate_video_file (Some f) = Valid (Some f)
             ↔ validate_video_file (Some g) = Valid (Some g)))
  ∧ (∀ f, file_name f ≠ "" →
          (10 * 1024 * 1024 < file_size f →
             validate_file (Some f) = Invalid "File size cannot exceed 10MB.")
          ∧ (50 * 1024 * 1024 < file_size f →
               validate_video_file (Some f)
               = Invalid "Video file size cannot exceed 50MB."))
  ∧ validate_file None = Valid None
  ∧ validate_video_file None = Valid None.
Proof.
  split; [|split; [|split; reflexivity]].
  - intros f g Hsize Hname. unfold validate_file, validate_video_file.
    rewrite !validate_upload_verdict, Hsize, Hname. tauto.
  - intros f Hname. unfold validate_file, validate_video_file, validate_upload,
      file_truthy.
    destruct (file_name f) as [|c r] eqn:E; [contradiction|].
    cbn [PyStr.truthy PyStr.is_empty negb].
    split; intros Hsize; apply Z.ltb_lt in Hsize; now rewrite Hsize.
Qed.

Lemma upload_validators_ignore_case_witness :
  (validate_file (Some (mkUploadedFile "Report.PDF" 2048))
   = Valid (Some (mkUploadedFile "Report.PDF" 2048))
   ↔ validate_file (Some (mkUploadedFile "report.pdf" 2048))
     = Valid (Some (mkUploadedFile "report.pdf" 2048)))
  ∧ validate_video_file (Some (mkUploadedFile "talk.mov" (60 * 1024 * 1024)))
    = Invalid "Video file size cannot exceed 50MB.".
Proof.
  split.
  - apply (proj1 upload_validators_ignore_case
             (mkUploadedFile "Report.PDF" 2048)
             (mkUploadedFile "report.pdf" 2048));
      reflexivity.
  - apply (proj1 (proj2 upload_validators_ignore_case)
             (mkUploadedFile "talk.mov" (60 * 1024 * 1024)));
      [discriminate | reflexivity].
Defined.

Lemma text_validators_accept_witness :
  validate_title "   tides  " = Valid "   tides  "
  ∧ validate_message "Your publication was rejected."
    = Valid "Your publication was rejected.".
Proof.
  split.
  - apply (proj2 (proj1 text_validators_accept "   tides  ")).
    split; [reflexivity|]. vm_compute. discriminate.
  - apply (proj2 (proj1 (proj2 (proj2 (proj2 text_validators_accept)))
                    "Your publication was rejected.")).
    split; [reflexivity|]. vm_compute. discriminate.
Defined.

Lemma mark_all_read_effect_witness :
  Forall2 (fun n n' =>
             same_but_is_read n n'
             ∧ (notif_user n ≠ user_id writer ∨ is_read n = true → n' = n))
          (notifications inbox) (notifications (snd (mark_all_read writer inbox)))
  ∧ publications (snd (mark_all_read writer inbox)) = publications inbox
  ∧ users (snd (mark_all_read writer inbox)) = users inbox
  ∧ ledger (snd (mark_all_read writer inbox)) = ledger inbox.
Proof. exact (proj2 (mark_all_read_effect writer inbox)). Defined.

(** A caller can mark as read exactly what the notification list shows
    them: the request succeeds when a notification with that identifier is
    in the caller's list, and fails with [Http404] otherwise. *)
Theorem mark_read_reaches_what_is_listed user pk vd st :
  ((∃ n, In n (notifications_of user st) ∧ notif_id n = pk) →
     ∃ n', fst (mark_read user pk vd st) = Ok n')
  ∧ ((∀ n, In n (notifications_of user st) → notif_id n ≠ pk) →
     mark_read user pk vd st = (Raise Http404, st)).
Proof.
  unfold mark_read. run. split.
  - intros (n & Hn & Hid).
    destruct (find _ _) as [m|] eqn:E.
    + unfold notification_update, notification_save. run. eexists. reflexivity.
    + rewrite find_none_iff in E. specialize (E n Hn).
      apply Z.eqb_neq in E. contradiction.
  - intros H.
    assert (E : find (fun n => Z.eqb (notif_id n) pk) (notifications_of user st)
                = None).
    { apply find_none_iff. intros n Hn. apply Z.eqb_neq. now apply H. }
    now rewrite E.
Qed.

Lemma mark_read_reaches_what_is_listed_witness :
  (∃ n', fst (mark_read writer 1 read_and_rewrite inbox) = Ok n')
  ∧ mark_read writer 2 read_and_rewrite inbox = (Raise Http404, inbox).
Proof.
  split.
  - apply (proj1 (mark_read_reaches_what_is_listed writer 1 read_and_rewrite
                    inbox)).
    eexists. split; [left; reflexivity|reflexivity].
  - apply (proj2 (mark_read_reaches_what_is_listed writer 2 read_and_rewrite
                    inbox)).
    intros n Hn. cbn in Hn. destruct Hn as [<-|[]]. discriminate.
Defined.
